(** * pelada-stat: the scoring rule, the statistics form and the ranking

    A shallow embedding of [app_futebol.py].  The three tables of the
    SQLite database are lists of rows in insertion (rowid) order; the two
    Flask views are functions from a request and a database to a response
    and the database that was committed.  Python integers are [Z], nullable
    columns are [option], text is [string] holding UTF-8, and an exception
    that leaves a view is a value of [resultado].  The built-ins are those
    of CPython 3.11 and the store is SQLite, whose integers have 64 bits.

    Outside the model: [str] of an integer of more than 4300 digits, which
    no key of a table is. *)

From Stdlib Require Import ZArith List Bool Ascii String Lia.
From Stdlib Require Import Sorted Permutation DecimalString.
From Stdlib Require DecimalPos.
Import ListNotations.

Open Scope string_scope.
Open Scope Z_scope.

(** ** Python values *)

(** [x or 0] on a nullable integer column: [None] and [0] are falsy. *)
Definition ou0 (x : option Z) : Z :=
  match x with
  | Some n => if n =? 0 then 0 else n
  | None => 0
  end.

(** Truth value of a nullable boolean column. *)
Definition verdadeiro (b : option bool) : bool :=
  match b with
  | Some true => true
  | _ => false
  end.

(** Truth value of a [str]: the empty string is falsy. *)
Definition nao_vazia (s : string) : bool :=
  match s with
  | EmptyString => false
  | String _ _ => true
  end.

Inductive excecao : Set :=
| ValueError
| OverflowError.

Inductive resultado (A : Type) : Type :=
| Ok (a : A)
| Levanta (e : excecao).

Arguments Ok {A} a.
Arguments Levanta {A} e.

Definition liga {A B : Type} (m : resultado A) (k : A -> resultado B)
  : resultado B :=
  match m with
  | Ok a => k a
  | Levanta e => Levanta e
  end.

Notation "x <- m ;; k" := (liga m (fun x => k))
  (at level 61, m at next level, right associativity).

(** [map(int, partes)] consumed to the end: the first failure is raised. *)
Fixpoint mapeia {A B : Type} (f : A -> resultado B) (l : list A)
  : resultado (list B) :=
  match l with
  | [] => Ok []
  | a :: l' => b <- f a ;; bs <- mapeia f l' ;; Ok (b :: bs)
  end.

(** *** [int(str)] in base ten *)

Definition codigo (c : ascii) : Z := Z.of_N (N_of_ascii c).

Definition continua (b : Z) : bool := (128 <=? b) && (b <? 192).

(** The code points of a text, which is held as UTF-8.  A byte that begins
    no well-formed sequence is read as U+FFFD. *)
Fixpoint decodifica (l : list ascii) : list Z :=
  match l with
  | [] => []
  | c0 :: l1 =>
      let b0 := codigo c0 in
      if b0 <? 128 then b0 :: decodifica l1
      else
        match l1 with
        | [] => [65533]
        | c1 :: l2 =>
            let b1 := codigo c1 in
            if (194 <=? b0) && (b0 <? 224) && continua b1
            then ((b0 - 192) * 64 + (b1 - 128)) :: decodifica l2
            else
              match l2 with
              | [] => 65533 :: decodifica l1
              | c2 :: l3 =>
                  let b2 := codigo c2 in
                  let cp3 :=
                    (b0 - 224) * 4096 + (b1 - 128) * 64 + (b2 - 128) in
                  if (224 <=? b0) && (b0 <? 240) && continua b1
                     && continua b2 && (2048 <=? cp3)
                     && negb ((55296 <=? cp3) && (cp3 <? 57344))
                  then cp3 :: decodifica l3
                  else
                    match l3 with
                    | [] => 65533 :: decodifica l1
                    | c3 :: l4 =>
                        let b3 := codigo c3 in
                        let cp4 :=
                          (b0 - 240) * 262144 + (b1 - 128) * 4096
                          + (b2 - 128) * 64 + (b3 - 128) in
                        if (240 <=? b0) && (b0 <? 245) && continua b1
                           && continua b2 && continua b3
                           && (65536 <=? cp4) && (cp4 <=? 1114111)
                        then cp4 :: decodifica l4
                        else 65533 :: decodifica l1
                    end
              end
        end
  end.

(** The digit zero of every run of ten decimal digits of Unicode 14.0,
    the character database of CPython 3.11. *)
Definition zeros_decimais : list Z :=
  [48; 1632; 1776; 1984; 2406; 2534; 2662; 2790;
   2918; 3046; 3174; 3302; 3430; 3558; 3664; 3792;
   3872; 4160; 4240; 6112; 6160; 6470; 6608; 6784;
   6800; 6992; 7088; 7232; 7248; 42528; 43216; 43264;
   43472; 43504; 43600; 44016; 65296; 66720; 68912; 69734;
   69872; 69942; 70096; 70384; 70736; 70864; 71248; 71360;
   71472; 71904; 72016; 72784; 73040; 73120; 92768; 92864;
   93008; 120782; 120792; 120802; 120812; 120822; 123200; 123632;
   125264; 130032].

(** [Py_UNICODE_TODECIMAL] *)
Definition decimal (cp : Z) : option Z :=
  match find (fun z => (z <=? cp) && (cp <=? z + 9)) zeros_decimais with
  | Some z => Some (cp - z)
  | None => None
  end.

(** [Py_UNICODE_ISSPACE] above ASCII. *)
Definition espaco_unicode (cp : Z) : bool :=
  (cp =? 133) || (cp =? 160) || (cp =? 5760)
  || ((8192 <=? cp) && (cp <=? 8202))
  || (cp =? 8232) || (cp =? 8233) || (cp =? 8239) || (cp =? 8287)
  || (cp =? 12288).

Definition letra (n : Z) : ascii := ascii_of_N (Z.to_N n).

(** One character of [_PyUnicode_TransformDecimalAndSpaceToASCII]: a
    character below 127 stays, white space becomes a blank, a decimal digit
    its ASCII digit; [None] is the question mark no integer holds. *)
Definition para_ascii (cp : Z) : option ascii :=
  if cp <? 127 then Some (letra cp)
  else if espaco_unicode cp then Some " "%char
  else option_map (fun d => letra (48 + d)) (decimal cp).

Fixpoint transforma (l : list Z) : option (list ascii) :=
  match l with
  | [] => Some []
  | cp :: l' =>
      match para_ascii cp, transforma l' with
      | Some c, Some r => Some (c :: r)
      | _, _ => None
      end
  end.

Definition digito (c : ascii) : option Z :=
  let n := codigo c in
  if (48 <=? n) && (n <=? 57) then Some (n - 48) else None.

(** [Py_ISSPACE]: the white space of the C locale. *)
Definition espaco (c : ascii) : bool :=
  let n := codigo c in
  ((9 <=? n) && (n <=? 13)) || (n =? 32).

Fixpoint tira_espacos (l : list ascii) : list ascii :=
  match l with
  | c :: l' => if espaco c then tira_espacos l' else l
  | [] => []
  end.

Definition strip (l : list ascii) : list ascii :=
  rev (tira_espacos (rev (tira_espacos l))).

(** Digits, with single underscores allowed between two digits.
    [ante] tells whether the previous character was a digit. *)
Fixpoint le_digitos (acc : Z) (ante : bool) (l : list ascii) : option Z :=
  match l with
  | [] => if ante then Some acc else None
  | c :: l' =>
      match digito c with
      | Some d => le_digitos (10 * acc + d) true l'
      | None =>
          if Ascii.eqb c "_"%char && ante then le_digitos acc false l'
          else None
      end
  end.

(** [sys.int_max_str_digits], as CPython sets it. *)
Definition int_max_str_digits : nat := 4300.

Definition conta_digitos (l : list ascii) : nat :=
  List.length
    (filter (fun c => match digito c with Some _ => true | None => false end)
       l).

(** The digits after the sign: refused when there are too many. *)
Definition le_limitado (l : list ascii) : option Z :=
  if (int_max_str_digits <? conta_digitos l)%nat then None
  else le_digitos 0 false l.

(** [int(s)]: [None] stands for [ValueError]. *)
Definition python_int (s : string) : option Z :=
  match transforma (decodifica (list_ascii_of_string s)) with
  | None => None
  | Some l =>
      match strip l with
      | c :: r =>
          if Ascii.eqb c "-"%char then option_map Z.opp (le_limitado r)
          else if Ascii.eqb c "+"%char then le_limitado r
          else le_limitado (c :: r)
      | [] => None
      end
  end.

Definition int (s : string) : resultado Z :=
  match python_int s with
  | Some n => Ok n
  | None => Levanta ValueError
  end.

(** [s.split(sep)] for a one-character separator. *)
Fixpoint split (sep : ascii) (s : string) : list string :=
  match s with
  | EmptyString => [EmptyString]
  | String c r =>
      if Ascii.eqb c sep then EmptyString :: split sep r
      else match split sep r with
           | h :: t => String c h :: t
           | [] => [String c EmptyString]
           end
  end.

(** [str(n)] of an integer, as an f-string prints it. *)
Definition str (n : Z) : string := NilZero.string_of_int (Z.to_int n).

(** *** [datetime.date] *)

Record date : Set := mk_date { year : Z; month : Z; day : Z }.

Definition bissexto (y : Z) : bool :=
  (y mod 4 =? 0) && (negb (y mod 100 =? 0) || (y mod 400 =? 0)).

Definition dias_no_mes (y m : Z) : Z :=
  if m =? 2 then (if bissexto y then 29 else 28)
  else if (m =? 4) || (m =? 6) || (m =? 9) || (m =? 11) then 30
  else 31.

(** An argument that fits a C [int]. *)
Definition cabe_int (n : Z) : bool := (- 2 ^ 31 <=? n) && (n <? 2 ^ 31).

(** The constructor [date(ano, mes, dia)]: [OverflowError] for an argument
    that is no C [int], [ValueError] for a date out of range. *)
Definition nova_date (ano mes dia : Z) : resultado date :=
  if negb (cabe_int ano && cabe_int mes && cabe_int dia)
  then Levanta OverflowError
  else if (1 <=? ano) && (ano <=? 9999)
          && (1 <=? mes) && (mes <=? 12)
          && (1 <=? dia) && (dia <=? dias_no_mes ano mes)
  then Ok (mk_date ano mes dia)
  else Levanta ValueError.

Definition date_eqb (a b : date) : bool :=
  (year a =? year b) && (month a =? month b) && (day a =? day b).

(** *** [MultiDict.get]: the first value stored under the key *)

Definition MultiDict : Set := list (string * string).

Fixpoint md_get (k : string) (md : MultiDict) : option string :=
  match md with
  | [] => None
  | (k', v) :: md' => if String.eqb k' k then Some v else md_get k md'
  end.

(** ** The models *)

Module Jogador.
Record t : Set := mk { id : Z; nome : string; goleiro : option bool }.
End Jogador.

Module Partida.
Record t : Set := mk { id : Z; data : date }.
End Partida.

Module Estatistica.
Record t : Set := mk {
  id : Z;
  partida_id : Z;
  jogador_id : Z;
  gols : option Z;
  assistencias : option Z;
  vitorias : option Z;
  empates : option Z;
  sem_gol : option Z
}.
End Estatistica.

(** The database: one list of rows per table, oldest row first. *)
Record BD : Set := mk_bd {
  jogadores : list Jogador.t;
  partidas : list Partida.t;
  estatisticas : list Estatistica.t
}.

Definition bd_vazio : BD := mk_bd [] [] [].

(** [INTEGER PRIMARY KEY]: one more than the largest key in the table. *)
Definition prox_id (ids : list Z) : Z := 1 + fold_right Z.max 0 ids.

(** The relationship [Estatistica.jogador]: the row the key points to. *)
Definition jogador_de (bd : BD) (e : Estatistica.t) : option Jogador.t :=
  find (fun j => Jogador.id j =? Estatistica.jogador_id e) (jogadores bd).

(** The back-reference [Jogador.estatisticas]. *)
Definition estatisticas_de (bd : BD) (j : Jogador.t) : list Estatistica.t :=
  filter (fun e => Estatistica.jogador_id e =? Jogador.id j) (estatisticas bd).

(** [self.jogador and self.jogador.goleiro] *)
Definition e_goleiro (oj : option Jogador.t) : bool :=
  match oj with
  | Some j => verdadeiro (Jogador.goleiro j)
  | None => false
  end.

(** The body of the property [pontos_dia], [self.jogador] given. *)
Definition pontos (oj : option Jogador.t) (e : Estatistica.t) : Z :=
  if e_goleiro oj then
    2 * (ou0 (Estatistica.sem_gol e)
         + ou0 (Estatistica.vitorias e)
         + ou0 (Estatistica.assistencias e)
         + ou0 (Estatistica.gols e))
  else
    2 * ou0 (Estatistica.gols e)
    + 2 * ou0 (Estatistica.assistencias e)
    + 2 * ou0 (Estatistica.vitorias e)
    + 1 * ou0 (Estatistica.empates e).

Definition pontos_dia (bd : BD) (e : Estatistica.t) : Z :=
  pontos (jogador_de bd e) e.

(** ** The requests *)

Inductive Metodo : Set :=
| GET
| POST.

(** A request, with the reading of the clock ([date.today()]) it is
    served at. *)
Record Pedido : Set := mk_pedido {
  method : Metodo;
  args : MultiDict;
  form : MultiDict;
  hoje : date
}.

(** ** The route [/] *)

(** Unpacking into [ano, mes, dia]: exactly three values.  Every failure
    of the line is a [ValueError], so it does not matter that Python finds a
    fourth value before it converts a fifth. *)
Definition desempacota3 (l : list Z) : resultado (Z * Z * Z) :=
  match l with
  | [a; b; c] => Ok (a, b, c)
  | _ => Levanta ValueError
  end.

Definition le_data (data_str : string) : resultado date :=
  ns <- mapeia int (split "-" data_str) ;;
  t <- desempacota3 ns ;;
  let '(ano, mes, dia) := t in
  nova_date ano mes dia.

Definition data_partida (req : Pedido) : resultado date :=
  match md_get "data" (args req) with
  | Some data_str =>
      if nao_vazia data_str then le_data data_str else Ok (hoje req)
  | None => Ok (hoje req)
  end.

(** [Partida.query.filter_by(data=...).first()] *)
Definition partida_da_data (d : date) (bd : BD) : option Partida.t :=
  find (fun p => date_eqb (Partida.data p) d) (partidas bd).

(** The match of the date, added and committed when there is none. *)
Definition garante_partida (d : date) (bd : BD) : Partida.t * BD :=
  match partida_da_data d bd with
  | Some partida => (partida, bd)
  | None =>
      let partida := Partida.mk (prox_id (map Partida.id (partidas bd))) d in
      (partida, mk_bd (jogadores bd) (partidas bd ++ [partida]) (estatisticas bd))
  end.

(** [ORDER BY nome]: byte order, rows of one name in table order. *)
Fixpoint insere_nome (j : Jogador.t) (l : list Jogador.t) : list Jogador.t :=
  match l with
  | [] => [j]
  | k :: l' =>
      if String.leb (Jogador.nome j) (Jogador.nome k) then j :: l
      else k :: insere_nome j l'
  end.

Definition order_by_nome (l : list Jogador.t) : list Jogador.t :=
  fold_right insere_nome [] l.

(** The helper of the loop: [int(val)], and [0] when it raises
    [ValueError], the one exception [int] raises for a text. *)
Definition get_int (form : MultiDict) (prefix nome_campo : string) : Z :=
  let val :=
    match md_get (prefix ++ nome_campo) form with
    | Some v => v
    | None => "0"
    end in
  match python_int val with
  | Some n => n
  | None => 0
  end.

Definition prefixo (jid : Z) : string := "j" ++ str jid ++ "_".

Definition mesma_chave (pid jid : Z) (e : Estatistica.t) : bool :=
  (Estatistica.partida_id e =? pid) && (Estatistica.jogador_id e =? jid).

(** The five assignments to the row. *)
Definition atribui (gols assist vits emp sem_gol : Z) (e : Estatistica.t)
  : Estatistica.t :=
  Estatistica.mk (Estatistica.id e) (Estatistica.partida_id e)
    (Estatistica.jogador_id e)
    (Some gols) (Some assist) (Some vits) (Some emp) (Some sem_gol).

(** A change to the row a query returned with [first()]. *)
Fixpoint altera_primeira (p : Estatistica.t -> bool)
  (f : Estatistica.t -> Estatistica.t) (l : list Estatistica.t)
  : list Estatistica.t :=
  match l with
  | [] => []
  | e :: l' => if p e then f e :: l' else e :: altera_primeira p f l'
  end.

(** The body of the loop over the roster in the POST branch. *)
Definition salva_jogador (form : MultiDict) (pid : Z)
  (ests : list Estatistica.t) (jogador : Jogador.t) : list Estatistica.t :=
  let prefix := prefixo (Jogador.id jogador) in
  let gols := get_int form prefix "gols" in
  let assist := get_int form prefix "assistencias" in
  let vits := get_int form prefix "vitorias" in
  let emp := get_int form prefix "empates" in
  let sem_gol := get_int form prefix "sem_gol" in
  let chave := mesma_chave pid (Jogador.id jogador) in
  match find chave ests with
  | Some _ => altera_primeira chave (atribui gols assist vits emp sem_gol) ests
  | None =>
      let estat :=
        Estatistica.mk (prox_id (map Estatistica.id ests)) pid
          (Jogador.id jogador) None None None None None in
      ests ++ [atribui gols assist vits emp sem_gol estat]
  end.

(** An integer [sqlite3] can bind: 64 bits, with sign. *)
Definition cabe_int64 (n : Z) : bool := (- 2 ^ 63 <=? n) && (n <? 2 ^ 63).

Definition campos : list string :=
  ["gols"; "assistencias"; "vitorias"; "empates"; "sem_gol"].

(** The five values the loop assigns to the row of player [jid] can all
    be written. *)
Definition cabem (form : MultiDict) (jid : Z) : bool :=
  forallb (fun campo => cabe_int64 (get_int form (prefixo jid) campo)) campos.

(** The flush of the rows the loop assigned, at the next query or at the
    commit: [OverflowError] when a value cannot be bound, and then the
    transaction is rolled back. *)
Definition flush (form : MultiDict) (jogs : list Jogador.t)
  : resultado unit :=
  if forallb (fun j => cabem form (Jogador.id j)) jogs then Ok tt
  else Levanta OverflowError.

Definition salva_estatisticas (form : MultiDict) (pid : Z)
  (jogs : list Jogador.t) (bd : BD) : BD :=
  mk_bd (jogadores bd) (partidas bd)
    (fold_left (salva_jogador form pid) jogs (estatisticas bd)).

(** A Python [dict] with integer keys: an assignment to a key that is
    there replaces its value where it stands. *)
Fixpoint dict_set {V : Type} (k : Z) (v : V) (d : list (Z * V))
  : list (Z * V) :=
  match d with
  | [] => [(k, v)]
  | (k', v') :: d' =>
      if k' =? k then (k, v) :: d' else (k', v') :: dict_set k v d'
  end.

(** An entry of the ranking, with the keys of the source. *)
Module Linha.
Record t : Set := mk {
  jogador : Jogador.t;
  gols : Z;
  assistencias : Z;
  vitorias : Z;
  empates : Z;
  sem_gol : Z;
  pontos : Z
}.
End Linha.

(** One turn of the inner loop: the six running totals. *)
Definition soma_estat (bd : BD) (acc : Linha.t) (est : Estatistica.t)
  : Linha.t :=
  Linha.mk (Linha.jogador acc)
    (Linha.gols acc + ou0 (Estatistica.gols est))
    (Linha.assistencias acc + ou0 (Estatistica.assistencias est))
    (Linha.vitorias acc + ou0 (Estatistica.vitorias est))
    (Linha.empates acc + ou0 (Estatistica.empates est))
    (Linha.sem_gol acc + ou0 (Estatistica.sem_gol est))
    (Linha.pontos acc + pontos_dia bd est).

Definition linha_de (bd : BD) (jogador : Jogador.t) : Linha.t :=
  fold_left (soma_estat bd) (estatisticas_de bd jogador)
    (Linha.mk jogador 0 0 0 0 0 0).

(** [list.sort(key=pontos, reverse=True)]: stable, so an entry goes before
    the entries that come after it and have no more points. *)
Fixpoint insere_pontos (x : Linha.t) (l : list Linha.t) : list Linha.t :=
  match l with
  | [] => [x]
  | y :: l' =>
      if Linha.pontos x <? Linha.pontos y then y :: insere_pontos x l'
      else x :: l
  end.

Definition ordena_pontos (l : list Linha.t) : list Linha.t :=
  fold_right insere_pontos [] l.

Definition monta_ranking (bd : BD) (jogs : list Jogador.t) : list Linha.t :=
  ordena_pontos (map (linha_de bd) jogs).

(** The variables handed to the template [index.html]. *)
Record Contexto : Set := mk_contexto {
  partida : Partida.t;
  goleiros : list Jogador.t;
  jogadores_linha : list Jogador.t;
  estat_por_jogador : list (Z * option Estatistica.t);
  ranking : list Linha.t
}.

Inductive Resposta : Set :=
| Renderiza (ctx : Contexto)
| Redireciona (data : date)
| RenderizaJogadores (lista : list Jogador.t)
| RedirecionaJogadores.

(** The view: the response and the database as committed, or the
    exception.  What a request that raises has committed by then is
    [confirmado]. *)
Definition index (req : Pedido) (bd : BD) : resultado (Resposta * BD) :=
  d <- data_partida req ;;
  let (partida, bd1) := garante_partida d bd in
  let jogs := order_by_nome (jogadores bd1) in
  let goleiros := filter (fun j => verdadeiro (Jogador.goleiro j)) jogs in
  let jogadores_linha :=
    filter (fun j => negb (verdadeiro (Jogador.goleiro j))) jogs in
  match method req with
  | POST =>
      _ <- flush (form req) jogs ;;
      Ok (Redireciona d,
          salva_estatisticas (form req) (Partida.id partida) jogs bd1)
  | GET =>
      let estat_por_jogador :=
        fold_left
          (fun dic j =>
             dict_set (Jogador.id j)
               (find (mesma_chave (Partida.id partida) (Jogador.id j))
                  (estatisticas bd1)) dic)
          jogs [] in
      Ok (Renderiza
            (mk_contexto partida goleiros jogadores_linha estat_por_jogador
               (monta_ranking bd1 jogs)),
          bd1)
  end.

(** ** The route [/jogadores] *)

Definition jogadores_view (req : Pedido) (bd : BD) : Resposta * BD :=
  match method req with
  | POST =>
      let goleiro :=
        match md_get "goleiro" (form req) with
        | Some s => nao_vazia s
        | None => false
        end in
      match md_get "nome" (form req) with
      | Some nome =>
          if nao_vazia nome then
            let j :=
              Jogador.mk (prox_id (map Jogador.id (jogadores bd))) nome
                (Some goleiro) in
            (RedirecionaJogadores,
             mk_bd (jogadores bd ++ [j]) (partidas bd) (estatisticas bd))
          else (RedirecionaJogadores, bd)
      | None => (RedirecionaJogadores, bd)
      end
  | GET => (RenderizaJogadores (order_by_nome (jogadores bd)), bd)
  end.

(** ** The states the application reaches *)

Inductive Chamada : Set :=
| ChamaIndex (req : Pedido)
| ChamaJogadores (req : Pedido).

(** What the index view has committed when it raises: nothing when the
    date raised, the match of the date when the flush did. *)
Definition confirmado (req : Pedido) (bd : BD) : BD :=
  match data_partida req with
  | Ok d => snd (garante_partida d bd)
  | Levanta _ => bd
  end.

(** The database after a request. *)
Definition passo (c : Chamada) (bd : BD) : BD :=
  match c with
  | ChamaIndex req =>
      match index req bd with
      | Ok (_, bd') => bd'
      | Levanta _ => confirmado req bd
      end
  | ChamaJogadores req => snd (jogadores_view req bd)
  end.

(** Reached from the empty database through requests that satisfy [P]. *)
Inductive alcancavel_por (P : Chamada -> Prop) : BD -> Prop :=
| alc_vazio : alcancavel_por P bd_vazio
| alc_passo (c : Chamada) (bd : BD) :
    alcancavel_por P bd -> P c -> alcancavel_por P (passo c bd).

Definition alcancavel : BD -> Prop := alcancavel_por (fun _ => True).

Definition executa (cs : list Chamada) (bd : BD) : BD :=
  fold_left (fun b c => passo c b) cs bd.

(** ** Vocabulary of the statements *)

(** A counter as the specification reads it: a null counts as zero. *)
Definition contador (x : option Z) : Z :=
  match x with
  | Some n => n
  | None => 0
  end.

(** The five counters of a row, in the order of the columns. *)
Definition contadores (e : Estatistica.t)
  : option Z * option Z * option Z * option Z * option Z :=
  (Estatistica.gols e, Estatistica.assistencias e, Estatistica.vitorias e,
   Estatistica.empates e, Estatistica.sem_gol e).

(** The five counters read from the fields of player [jid] in a form. *)
Definition valores_do_form (f : MultiDict) (jid : Z)
  : option Z * option Z * option Z * option Z * option Z :=
  (Some (get_int f (prefixo jid) "gols"),
   Some (get_int f (prefixo jid) "assistencias"),
   Some (get_int f (prefixo jid) "vitorias"),
   Some (get_int f (prefixo jid) "empates"),
   Some (get_int f (prefixo jid) "sem_gol")).

(** The rows of the pair (match, player). *)
Definition linhas_de (pid jid : Z) (ests : list Estatistica.t)
  : list Estatistica.t :=
  filter (mesma_chave pid jid) ests.

(** At most one row for each pair (match, player). *)
Definition sem_repetidas (ests : list Estatistica.t) : Prop :=
  forall pid jid, (List.length (linhas_de pid jid ests) <= 1)%nat.

(** The pair has one row, and it holds what the form says. *)
Definition gravada (f : MultiDict) (pid jid : Z) (ests : list Estatistica.t)
  : Prop :=
  exists e,
    linhas_de pid jid ests = [e] /\ contadores e = valores_do_form f jid.

(** The assignments of the loop, for the fields of player [jid]. *)
Definition grava (f : MultiDict) (jid : Z) : Estatistica.t -> Estatistica.t :=
  atribui (get_int f (prefixo jid) "gols")
    (get_int f (prefixo jid) "assistencias")
    (get_int f (prefixo jid) "vitorias")
    (get_int f (prefixo jid) "empates")
    (get_int f (prefixo jid) "sem_gol").

(** The matches of a date. *)
Definition partidas_na_data (d : date) (bd : BD) : list Partida.t :=
  filter (fun p => date_eqb (Partida.data p) d) (partidas bd).

(** The date resolved [n] times in a row. *)
Definition resolve_n (n : nat) (d : date) (bd : BD) : BD :=
  Nat.iter n (fun b => snd (garante_partida d b)) bd.

(** At most one match on each date. *)
Definition uma_por_data (bd : BD) : Prop :=
  forall d, (List.length (partidas_na_data d bd) <= 1)%nat.

(** The text reads as three integers separated by dashes. *)
Definition tres_inteiros (s : string) (a b c : Z) : Prop :=
  map python_int (split "-" s) = [Some a; Some b; Some c].

Definition bem_formada (s : string) : Prop :=
  exists a b c, tres_inteiros s a b c.

(** The three integers are a date of the calendar. *)
Definition calendario (a b c : Z) : Prop :=
  1 <= a <= 9999 /\ 1 <= b <= 12 /\ 1 <= c <= dias_no_mes a b.

(** The three integers fit a C [int] each. *)
Definition ints_de_c (a b c : Z) : Prop :=
  cabe_int a = true /\ cabe_int b = true /\ cabe_int c = true.

(** Every value the form holds for a player of the roster can be
    written. *)
Definition tudo_cabe (f : MultiDict) (bd : BD) : bool :=
  forallb (fun j => cabem f (Jogador.id j)) (order_by_nome (jogadores bd)).

(** A [data] is there and does not read as three integers. *)
Definition data_mal_formada (req : Pedido) : Prop :=
  exists s, md_get "data" (args req) = Some s /\ ~ bem_formada s.

(** No counter of the row is negative. *)
Definition nao_negativa (e : Estatistica.t) : Prop :=
  0 <= contador (Estatistica.gols e)
  /\ 0 <= contador (Estatistica.assistencias e)
  /\ 0 <= contador (Estatistica.vitorias e)
  /\ 0 <= contador (Estatistica.empates e)
  /\ 0 <= contador (Estatistica.sem_gol e).

(** No counter field of a submission, the field of one of the five
    counters under the prefix of a player, is read as a negative integer. *)
Definition sem_negativos (c : Chamada) : Prop :=
  match c with
  | ChamaIndex req =>
      method req = POST ->
      forall jid campo,
        In campo campos -> 0 <= get_int (form req) (prefixo jid) campo
  | ChamaJogadores _ => True
  end.

Definition soma (l : list Z) : Z := fold_right Z.add 0 l.

Definition nome_le (a b : Jogador.t) : Prop :=
  String.leb (Jogador.nome a) (Jogador.nome b) = true.

Definition pontos_ge (a b : Linha.t) : Prop :=
  Linha.pontos a >= Linha.pontos b.

(** More points first; with the same points, the lesser name first. *)
Definition antes (a b : Linha.t) : Prop :=
  Linha.pontos a > Linha.pontos b
  \/ (Linha.pontos a = Linha.pontos b
      /\ nome_le (Linha.jogador a) (Linha.jogador b)).

(** *** More of the program *)

(** Reading a key of a [dict]. *)
Fixpoint dict_get {V : Type} (k : Z) (d : list (Z * V)) : option V :=
  match d with
  | [] => None
  | (k', v) :: d' => if k' =? k then Some v else dict_get k d'
  end.

Fixpoint zeros (n : nat) : string :=
  match n with
  | O => EmptyString
  | S n' => String "0" (zeros n')
  end.

(** [%0wd] of an integer that is not negative, as the fields of a date
    are. *)
Definition zfill (w : nat) (n : Z) : string :=
  zeros (w - String.length (str n)) ++ str n.

(** [int] reads back every integer from 0 to [k] printed with [%0wd]. *)
Definition confere (w k : nat) : bool :=
  forallb
    (fun n =>
       match python_int (zfill w (Z.of_nat n)) with
       | Some m => m =? Z.of_nat n
       | None => false
       end)
    (seq 0 (S k)).

(** [date.isoformat()]: [%04d-%02d-%02d]. *)
Definition isoformat (d : date) : string :=
  zfill 4 (year d) ++ "-" ++ zfill 2 (month d) ++ "-" ++ zfill 2 (day d).

(** The request a browser makes when it follows
    [redirect(url_for('index', data=...isoformat()))]. *)
Definition segue (d h : date) : Pedido :=
  mk_pedido GET [("data", isoformat d)] [] h.

(** The characters of a text. *)
Definition letras (s : string) : list ascii := list_ascii_of_string s.

(** The text is made of decimal digits only. *)
Definition so_digitos (s : string) : Prop :=
  Forall (fun c => digito c <> None) (letras s).

(** The character does not occur in the text. *)
Definition sem_letra (c : ascii) (s : string) : Prop :=
  Forall (fun x => x <> c) (letras s).

(** The columns of a row that say which row it is and whose. *)
Definition tripla (e : Estatistica.t) : Z * Z * Z :=
  (Estatistica.id e, Estatistica.partida_id e, Estatistica.jogador_id e).

(** The row as the loop makes it before the assignments. *)
Definition estat_nova (ests : list Estatistica.t) (pid jid : Z)
  : Estatistica.t :=
  Estatistica.mk (prox_id (map Estatistica.id ests)) pid jid
    None None None None None.

(** The keys of each table are all different and positive. *)
Definition ids_distintos (bd : BD) : Prop :=
  (NoDup (map Jogador.id (jogadores bd))
   /\ Forall (fun i => 0 < i) (map Jogador.id (jogadores bd)))
  /\ (NoDup (map Partida.id (partidas bd))
      /\ Forall (fun i => 0 < i) (map Partida.id (partidas bd)))
  /\ (NoDup (map Estatistica.id (estatisticas bd))
      /\ Forall (fun i => 0 < i) (map Estatistica.id (estatisticas bd))).

(** The row points to a match and to a player that are there. *)
Definition referencia_valida (bd : BD) (e : Estatistica.t) : Prop :=
  (exists p, In p (partidas bd) /\ Partida.id p = Estatistica.partida_id e)
  /\ (exists j,
        In j (jogadores bd) /\ Jogador.id j = Estatistica.jogador_id e).

(** No counter of the row is null. *)
Definition preenchida (e : Estatistica.t) : Prop :=
  exists g a w d s,
    contadores e = (Some g, Some a, Some w, Some d, Some s).

(** [l'] is [l] with rows added at the end. *)
Definition cresce {A : Type} (l l' : list A) : Prop :=
  exists r, l' = (l ++ r)%list.

(** The date is one of the calendar. *)
Definition data_valida (d : date) : Prop :=
  nova_date (year d) (month d) (day d) = Ok d.

(** *** Sample data *)

Definition dia_1 : date := mk_date 2024 5 1.

Definition cadastra (nome : string) (goleiro : bool) : Chamada :=
  ChamaJogadores
    (mk_pedido POST []
       (("nome", nome) :: if goleiro then [("goleiro", "on")] else [])
       dia_1).

Definition bd_elenco : BD :=
  executa [cadastra "Zeca" false; cadastra "Ana" true; cadastra "Bia" false]
    bd_vazio.

Definition envio : Pedido :=
  mk_pedido POST [("data", "2024-05-02")]
    [("j1_gols", "2"); ("j1_assistencias", "1"); ("j1_vitorias", "1");
     ("j1_empates", "1"); ("j2_sem_gol", "3"); ("j2_vitorias", "2");
     ("j2_empates", "4"); ("j3_gols", "abc")]
    dia_1.

Definition consulta : Pedido :=
  mk_pedido GET [("data", "2024-05-02")] [] dia_1.

Definition bd_rodada : BD := executa [ChamaIndex envio] bd_elenco.

Definition envio_grande : Pedido :=
  mk_pedido POST [("data", "2024-05-02")]
    [("j1_gols", "9223372036854775808")] dia_1.


Definition envio_negativo : Pedido :=
  mk_pedido POST [] [("j1_gols", "-3")] dia_1.

Definition bd_negativo : BD :=
  executa [cadastra "Ana" true; ChamaIndex envio_negativo] bd_vazio.

(** The page a request for the index is answered with, if it is. *)
Definition pagina (req : Pedido) (bd : BD) : option Contexto :=
  match index req bd with
  | Ok (Renderiza ctx, _) => Some ctx
  | _ => None
  end.

Definition pedido_data_vazia : Pedido := mk_pedido GET [("data", "")] [] dia_1.

Definition pedido_mes_13 : Pedido :=
  mk_pedido GET [("data", "2024-13-02")] [] dia_1.

Definition orfa : Estatistica.t :=
  Estatistica.mk 9 1 77 (Some 2) (Some 1) (Some 1) (Some 1) (Some 5).

Definition linha_zeca : Estatistica.t :=
  Estatistica.mk 3 1 1 (Some 2) (Some 1) (Some 1) (Some 1) (Some 0).

Definition linha_ana : Estatistica.t :=
  Estatistica.mk 1 1 2 (Some 0) (Some 0) (Some 2) (Some 4) (Some 3).

(** * Properties *)

(** ** The parser and the helpers *)

Example int_exemplos :
  map python_int ["12"; " 7 "; "-3"; "+4"; "1_000"; ""; "abc"; "1__0"; "5_"; "- 5"; "0"]
  = [Some 12; Some 7; Some (-3); Some 4; Some 1000; None; None; None; None; None; Some 0].
Proof. reflexivity. Qed.

Example int_alem_de_ascii :
  map python_int
    [String "031" "3"; String "012" "3"; "-٣"; "٣_٤"; "１２"; "٣x"; "é"]
  = [None; Some 3; Some (-3); Some 34; Some 12; None; None].
Proof. vm_compute. reflexivity. Qed.

Example int_limite_de_digitos :
  map (fun n => python_int (zeros n ++ "7"))
    [4299%nat; 4300%nat]
  = [Some 7; None].
Proof. vm_compute. reflexivity. Qed.

Example split_exemplos :
  map (split "-") ["2024-01-05"; ""; "-"; "a--b"]
  = [["2024"; "01"; "05"]; [""]; [""; ""]; ["a"; ""; "b"]].
Proof. reflexivity. Qed.

Example str_exemplos : map str [1; 42; 0; -7] = ["1"; "42"; "0"; "-7"].
Proof. reflexivity. Qed.

Example nova_date_exemplos :
  map (fun t => let '(a, m, d) := t in nova_date a m d)
    [(2024, 2, 29); (2023, 2, 29); (2024, 13, 1); (1900, 2, 29); (2000, 2, 29);
     (2147483648, 1, 1); (2147483647, 1, 1)]
  = [Ok (mk_date 2024 2 29); Levanta ValueError; Levanta ValueError;
     Levanta ValueError; Ok (mk_date 2000 2 29); Levanta OverflowError;
     Levanta ValueError].
Proof. reflexivity. Qed.

Lemma ou0_contador (x : option Z) : ou0 x = contador x.
Proof.
  destruct x as [n|]; simpl; [|reflexivity].
  destruct (Z.eqb_spec n 0); congruence.
Qed.

Lemma date_eqb_eq (a b : date) : date_eqb a b = true <-> a = b.
Proof.
  unfold date_eqb. destruct a, b; simpl.
  rewrite !andb_true_iff, !Z.eqb_eq. split.
  - intros [[-> ->] ->]. reflexivity.
  - intros H. injection H as -> -> ->. auto.
Qed.

Lemma date_eqb_refl (a : date) : date_eqb a a = true.
Proof. apply date_eqb_eq. reflexivity. Qed.

Lemma mapeia_int (l : list string) :
  match mapeia int l with
  | Ok ns => map python_int l = map Some ns
  | Levanta e => e = ValueError /\ exists s, In s l /\ python_int s = None
  end.
Proof.
  induction l as [|s l IH]; simpl; [reflexivity|].
  unfold int at 1. destruct (python_int s) as [n|] eqn:Hs; simpl.
  - destruct (mapeia int l) as [ns|e]; simpl.
    + now rewrite IH.
    + destruct IH as (He & s' & Hin & Hn). split; [exact He|].
      exists s'. auto.
  - split; [reflexivity|]. exists s. auto.
Qed.

Lemma cabe_int_calendario (a b c : Z) : calendario a b c -> ints_de_c a b c.
Proof.
  unfold calendario, ints_de_c, cabe_int, dias_no_mes.
  intros (Ha & Hb & Hc).
  assert (c <= 31).
  { destruct (b =? 2); [destruct (bissexto a); lia|].
    destruct ((b =? 4) || (b =? 6) || (b =? 9) || (b =? 11)); lia. }
  repeat split; apply andb_true_iff; split;
    try apply Z.leb_le; try apply Z.ltb_lt; lia.
Qed.

(** What the constructor of the date does with three integers. *)
Lemma nova_date_spec (a b c : Z) :
  match nova_date a b c with
  | Ok d => d = mk_date a b c /\ calendario a b c
  | Levanta ValueError => ints_de_c a b c /\ ~ calendario a b c
  | Levanta OverflowError => ~ ints_de_c a b c
  end.
Proof.
  unfold nova_date, calendario, ints_de_c.
  destruct (cabe_int a) eqn:Ha; simpl;
    [|intros (H & _); discriminate].
  destruct (cabe_int b) eqn:Hb; simpl;
    [|intros (_ & H & _); discriminate].
  destruct (cabe_int c) eqn:Hc; simpl;
    [|intros (_ & _ & H); discriminate].
  destruct (Z.leb_spec 1 a); simpl; [|split; [auto|lia]].
  destruct (Z.leb_spec a 9999); simpl; [|split; [auto|lia]].
  destruct (Z.leb_spec 1 b); simpl; [|split; [auto|lia]].
  destruct (Z.leb_spec b 12); simpl; [|split; [auto|lia]].
  destruct (Z.leb_spec 1 c); simpl; [|split; [auto|lia]].
  destruct (Z.leb_spec c (dias_no_mes a b)); simpl; [|split; [auto|lia]].
  split; [reflexivity|lia].
Qed.

Lemma le_data_spec (s : string) :
  match le_data s with
  | Ok d => exists a b c, tres_inteiros s a b c /\ nova_date a b c = Ok d
  | Levanta e =>
      (~ bem_formada s /\ e = ValueError)
      \/ exists a b c,
           tres_inteiros s a b c /\ nova_date a b c = Levanta e
  end.
Proof.
  unfold le_data, bem_formada, tres_inteiros.
  pose proof (mapeia_int (split "-" s)) as H.
  destruct (mapeia int (split "-" s)) as [ns|e]; simpl.
  - destruct ns as [|a [|b [|c [|x ns]]]]; simpl;
      try (left; split; [|reflexivity];
           intros (a' & b' & c' & H'); rewrite H in H'; discriminate).
    destruct (nova_date a b c) as [d|e] eqn:Hd.
    + exists a, b, c. auto.
    + right. exists a, b, c. auto.
  - destruct H as (-> & s' & Hin & Hn). left. split; [|reflexivity].
    intros (a & b & c & H').
    apply (in_map python_int) in Hin. rewrite H', Hn in Hin.
    simpl in Hin. intuition discriminate.
Qed.

(** ** The scoring rule *)

Section Pontuacao.

Variable bd : BD.
Variable e : Estatistica.t.

Let g := contador (Estatistica.gols e).
Let a := contador (Estatistica.assistencias e).
Let w := contador (Estatistica.vitorias e).
Let d := contador (Estatistica.empates e).
Let s := contador (Estatistica.sem_gol e).

(** C1. With [g], [a], [w], [d], [s] the goals, assists, wins, draws and
    clean sheets of a row, a null read as zero, the points of the row are
    [2 * (s + w + a + g)] when the flag of its player is true and
    [2*g + 2*a + 2*w + 1*d] when it is not.  The function is total and
    pure; the counters need not even be natural numbers. *)
Theorem pontos_dia_regra (j : Jogador.t) :
  jogador_de bd e = Some j ->
  (Jogador.goleiro j = Some true -> pontos_dia bd e = 2 * (s + w + a + g))
  /\ (Jogador.goleiro j <> Some true ->
      pontos_dia bd e = 2 * g + 2 * a + 2 * w + 1 * d).
Proof.
  intros Hj. unfold pontos_dia, pontos. rewrite Hj, !ou0_contador. simpl.
  split.
  - intros ->. reflexivity.
  - intros Hn. destruct (Jogador.goleiro j) as [[|]|]; simpl;
      try reflexivity. now elim Hn.
Qed.

(** C9. A row whose player does not resolve scores as a field player:
    draws count one point each and clean sheets count nothing. *)
Theorem pontos_dia_sem_jogador :
  jogador_de bd e = None ->
  pontos_dia bd e = 2 * g + 2 * a + 2 * w + 1 * d.
Proof.
  intros Hj. unfold pontos_dia, pontos. rewrite Hj, !ou0_contador.
  reflexivity.
Qed.

End Pontuacao.

Lemma pontos_dia_regra_witness :
  In linha_ana (estatisticas bd_rodada)
  /\ In linha_zeca (estatisticas bd_rodada)
  /\ pontos_dia bd_rodada linha_ana = 10
  /\ pontos_dia bd_rodada linha_zeca = 9.
Proof.
  split; [vm_compute; auto|]. split; [vm_compute; auto|]. split.
  - refine (proj1 (pontos_dia_regra bd_rodada linha_ana
                     (Jogador.mk 2 "Ana" (Some true)) _) _); reflexivity.
  - refine (proj2 (pontos_dia_regra bd_rodada linha_zeca
                     (Jogador.mk 1 "Zeca" (Some false)) _) _);
      [reflexivity|discriminate].
Defined.

Lemma pontos_dia_sem_jogador_witness :
  jogador_de bd_rodada orfa = None /\ pontos_dia bd_rodada orfa = 9.
Proof.
  split; [reflexivity|].
  apply (pontos_dia_sem_jogador bd_rodada orfa). reflexivity.
Defined.

(** ** The date of the request *)

Lemma data_partida_spec (req : Pedido) :
  match data_partida req with
  | Ok d =>
      match md_get "data" (args req) with
      | Some s =>
          if nao_vazia s
          then exists a b c, tres_inteiros s a b c /\ nova_date a b c = Ok d
          else d = hoje req
      | None => d = hoje req
      end
  | Levanta e =>
      exists s,
        md_get "data" (args req) = Some s /\ s <> ""
        /\ ((~ bem_formada s /\ e = ValueError)
            \/ exists a b c,
                 tres_inteiros s a b c /\ nova_date a b c = Levanta e)
  end.
Proof.
  unfold data_partida. destruct (md_get "data" (args req)) as [s|].
  - destruct s as [|c s]; simpl; [reflexivity|].
    pose proof (le_data_spec (String c s)) as H.
    destruct (le_data (String c s)); [exact H|].
    exists (String c s). repeat split; [discriminate|exact H].
  - reflexivity.
Qed.

Lemma garante_partida_data (d : date) (bd : BD) :
  Partida.data (fst (garante_partida d bd)) = d.
Proof.
  unfold garante_partida, partida_da_data.
  destruct (find _ (partidas bd)) as [p|] eqn:Hf; simpl; [|reflexivity].
  apply find_some in Hf. now apply date_eqb_eq.
Qed.

(** C8, as stated, fails in both directions.  An empty [data] is present
    and is not three integers, yet nothing is raised; [2024-13-02] is three
    integers separated by dashes, yet the constructor of the date raises. *)
Lemma index_data_contra :
  ~ (index pedido_data_vazia bd_vazio = Levanta ValueError
     <-> data_mal_formada pedido_data_vazia)
  /\ ~ (index pedido_mes_13 bd_vazio = Levanta ValueError
        <-> data_mal_formada pedido_mes_13).
Proof.
  split; intros [H1 H2].
  - assert (H : data_mal_formada pedido_data_vazia).
    { exists "". split; [reflexivity|].
      intros (a & b & c & H). discriminate H. }
    apply H2 in H. discriminate H.
  - destruct (H1 eq_refl) as (s & Hs & Hn). apply Hn.
    injection Hs as <-. exists 2024, 13, 2. reflexivity.
Qed.

(** ** Queries with [first()] *)

Section Consultas.

Context {A : Type}.
Variable p : A -> bool.

Lemma find_None_filter (l : list A) : find p l = None <-> filter p l = [].
Proof.
  induction l as [|x l IH]; simpl; [tauto|].
  destruct (p x); [split; discriminate|exact IH].
Qed.

Lemma find_Some_filter (l : list A) (x : A) :
  find p l = Some x -> exists r, filter p l = x :: r.
Proof.
  induction l as [|y l IH]; simpl; [discriminate|].
  destruct (p y) eqn:Hy.
  - intros [= ->]. eauto.
  - exact IH.
Qed.

Lemma find_snoc (l : list A) (x : A) :
  find p l = None -> find p (l ++ [x]) = if p x then Some x else None.
Proof.
  induction l as [|y l IH]; simpl; [reflexivity|].
  destruct (p y); [discriminate|exact IH].
Qed.

Lemma filter_snoc (l : list A) (x : A) :
  filter p (l ++ [x]) = (filter p l ++ (if p x then [x] else []))%list.
Proof. rewrite filter_app. reflexivity. Qed.

End Consultas.

(** ** The match of a date *)

Lemma garante_partida_achada (d : date) (bd : BD) (p : Partida.t) :
  partida_da_data d bd = Some p -> garante_partida d bd = (p, bd).
Proof. intros H. unfold garante_partida. now rewrite H. Qed.

Lemma garante_partida_nova (d : date) (bd : BD) :
  partida_da_data d bd = None ->
  garante_partida d bd
  = (Partida.mk (prox_id (map Partida.id (partidas bd))) d,
     mk_bd (jogadores bd)
       (partidas bd ++ [Partida.mk (prox_id (map Partida.id (partidas bd))) d])
       (estatisticas bd)).
Proof. intros H. unfold garante_partida. now rewrite H. Qed.

Lemma garante_partida_tabelas (d : date) (bd : BD) :
  jogadores (snd (garante_partida d bd)) = jogadores bd
  /\ estatisticas (snd (garante_partida d bd)) = estatisticas bd.
Proof.
  unfold garante_partida. destruct (partida_da_data d bd); simpl; auto.
Qed.

Lemma garante_partida_de_novo (d : date) (bd : BD) :
  garante_partida d (snd (garante_partida d bd)) = garante_partida d bd.
Proof.
  destruct (partida_da_data d bd) as [p|] eqn:Hf.
  - rewrite (garante_partida_achada _ _ _ Hf). simpl.
    now apply garante_partida_achada.
  - rewrite (garante_partida_nova _ _ Hf). simpl.
    apply garante_partida_achada. unfold partida_da_data in *. simpl.
    rewrite (find_snoc _ _ _ Hf). simpl. now rewrite date_eqb_refl.
Qed.

Lemma garante_partida_uma (d : date) (bd : BD) :
  uma_por_data bd -> uma_por_data (snd (garante_partida d bd)).
Proof.
  intros Hu d'. destruct (partida_da_data d bd) as [p|] eqn:Hf.
  - rewrite (garante_partida_achada _ _ _ Hf). apply Hu.
  - rewrite (garante_partida_nova _ _ Hf). unfold partidas_na_data. simpl.
    rewrite filter_snoc, length_app. simpl.
    destruct (date_eqb d d') eqn:Hd; simpl.
    + apply date_eqb_eq in Hd. subst d'.
      apply find_None_filter in Hf. rewrite Hf. simpl. lia.
    + specialize (Hu d'). unfold partidas_na_data in Hu. lia.
Qed.

Lemma garante_partida_conta (d : date) (bd : BD) :
  uma_por_data bd ->
  List.length (partidas_na_data d (snd (garante_partida d bd))) = 1%nat.
Proof.
  intros Hu. destruct (partida_da_data d bd) as [p|] eqn:Hf.
  - rewrite (garante_partida_achada _ _ _ Hf). simpl.
    specialize (Hu d). apply find_Some_filter in Hf. destruct Hf as (r & Hr).
    unfold partidas_na_data in *. rewrite Hr in *. simpl in *. lia.
  - rewrite (garante_partida_nova _ _ Hf). unfold partidas_na_data. simpl.
    rewrite filter_snoc, length_app. simpl. rewrite date_eqb_refl.
    apply find_None_filter in Hf. rewrite Hf. reflexivity.
Qed.

Lemma resolve_n_uma_vez (n : nat) (d : date) (bd : BD) :
  resolve_n (S n) d bd = snd (garante_partida d bd).
Proof.
  induction n as [|n IH]; [reflexivity|].
  change (resolve_n (S (S n)) d bd)
    with (snd (garante_partida d (resolve_n (S n) d bd))).
  rewrite IH, garante_partida_de_novo. reflexivity.
Qed.

(** ** The two branches of the index view *)

Lemma flush_tudo_cabe (f : MultiDict) (d : date) (bd : BD) :
  flush f (order_by_nome (jogadores (snd (garante_partida d bd))))
  = if tudo_cabe f bd then Ok tt else Levanta OverflowError.
Proof.
  unfold flush, tudo_cabe.
  now rewrite (proj1 (garante_partida_tabelas d bd)).
Qed.

Lemma index_get_eq (req : Pedido) (bd : BD) (d : date) :
  method req = GET -> data_partida req = Ok d ->
  index req bd
  = Ok (Renderiza
          (mk_contexto (fst (garante_partida d bd))
             (filter (fun j => verdadeiro (Jogador.goleiro j))
                (order_by_nome (jogadores (snd (garante_partida d bd)))))
             (filter (fun j => negb (verdadeiro (Jogador.goleiro j)))
                (order_by_nome (jogadores (snd (garante_partida d bd)))))
             (fold_left
                (fun dic j =>
                   dict_set (Jogador.id j)
                     (find
                        (mesma_chave
                           (Partida.id (fst (garante_partida d bd)))
                           (Jogador.id j))
                        (estatisticas (snd (garante_partida d bd)))) dic)
                (order_by_nome (jogadores (snd (garante_partida d bd)))) [])
             (monta_ranking (snd (garante_partida d bd))
                (order_by_nome (jogadores (snd (garante_partida d bd)))))),
        snd (garante_partida d bd)).
Proof.
  intros Hm Hd. unfold index. rewrite Hd. simpl.
  destruct (garante_partida d bd). now rewrite Hm.
Qed.

Lemma index_post_eq (req : Pedido) (bd : BD) (d : date) :
  method req = POST -> data_partida req = Ok d ->
  index req bd
  = if tudo_cabe (form req) bd
    then Ok (Redireciona d,
             salva_estatisticas (form req)
               (Partida.id (fst (garante_partida d bd)))
               (order_by_nome (jogadores (snd (garante_partida d bd))))
               (snd (garante_partida d bd)))
    else Levanta OverflowError.
Proof.
  intros Hm Hd. pose proof (flush_tudo_cabe (form req) d bd) as Hf.
  unfold index. rewrite Hd. simpl.
  destruct (garante_partida d bd) as [p bd1]. rewrite Hm. simpl in *.
  rewrite Hf. now destruct (tudo_cabe (form req) bd).
Qed.

Lemma index_post (req : Pedido) (bd : BD) (d : date) :
  method req = POST -> data_partida req = Ok d ->
  tudo_cabe (form req) bd = true ->
  index req bd
  = Ok (Redireciona d,
        salva_estatisticas (form req)
          (Partida.id (fst (garante_partida d bd)))
          (order_by_nome (jogadores (snd (garante_partida d bd))))
          (snd (garante_partida d bd))).
Proof. intros Hm Hd Hc. now rewrite (index_post_eq req bd d Hm Hd), Hc. Qed.

(** The view raises when its date does, and when a POST cannot be
    flushed; in no other case. *)
Lemma index_levanta (req : Pedido) (bd : BD) (e : excecao) :
  index req bd = Levanta e <->
  data_partida req = Levanta e
  \/ ((exists d, data_partida req = Ok d)
      /\ method req = POST /\ tudo_cabe (form req) bd = false
      /\ e = OverflowError).
Proof.
  destruct (data_partida req) as [d|e'] eqn:Hd.
  - destruct (method req) eqn:Hm.
    + rewrite (index_get_eq req bd d Hm Hd). split; [discriminate|].
      intros [H|(_ & H & _)]; discriminate.
    + rewrite (index_post_eq req bd d Hm Hd).
      destruct (tudo_cabe (form req) bd); split.
      * discriminate.
      * intros [H|(_ & _ & H & _)]; discriminate.
      * intros [= <-]. right. eauto.
      * intros [H|(_ & _ & _ & ->)]; [discriminate|reflexivity].
  - unfold index. rewrite Hd. simpl. split.
    + intros [= ->]. now left.
    + intros [[= ->]|[[d H] _]]; [reflexivity|discriminate].
Qed.

(** What a request does to the database. *)
Lemma passo_index (req : Pedido) (bd : BD) :
  passo (ChamaIndex req) bd
  = match data_partida req with
    | Levanta _ => bd
    | Ok d =>
        match method req with
        | GET => snd (garante_partida d bd)
        | POST =>
            if tudo_cabe (form req) bd
            then salva_estatisticas (form req)
                   (Partida.id (fst (garante_partida d bd)))
                   (order_by_nome (jogadores (snd (garante_partida d bd))))
                   (snd (garante_partida d bd))
            else snd (garante_partida d bd)
        end
    end.
Proof.
  simpl. unfold confirmado. destruct (data_partida req) as [d|e] eqn:Hd.
  - destruct (method req) eqn:Hm.
    + now rewrite (index_get_eq req bd d Hm Hd).
    + rewrite (index_post_eq req bd d Hm Hd).
      now destruct (tudo_cabe (form req) bd).
  - unfold index. now rewrite Hd.
Qed.

Lemma passo_jogadores (req : Pedido) (bd : BD) :
  partidas (passo (ChamaJogadores req) bd) = partidas bd
  /\ estatisticas (passo (ChamaJogadores req) bd) = estatisticas bd.
Proof.
  simpl. unfold jogadores_view. destruct (method req); simpl; auto.
  destruct (md_get "nome" (form req)) as [n|]; simpl; auto.
  destruct (nao_vazia n); simpl; auto.
Qed.

Lemma alcancavel_uma_por_data (P : Chamada -> Prop) (bd : BD) :
  alcancavel_por P bd -> uma_por_data bd.
Proof.
  induction 1 as [|c bd _ IH _].
  - intros d. simpl. lia.
  - destruct c as [req|req].
    + rewrite passo_index. destruct (data_partida req) as [d|]; [|exact IH].
      pose proof (garante_partida_uma d bd IH) as H1.
      destruct (method req); [exact H1|].
      destruct (tudo_cabe (form req) bd); exact H1.
    + intros d. unfold partidas_na_data.
      rewrite (proj1 (passo_jogadores req bd)). apply IH.
Qed.

Lemma alcancavel_executa (P : Chamada -> Prop) (cs : list Chamada) (bd : BD) :
  alcancavel_por P bd -> Forall P cs -> alcancavel_por P (executa cs bd).
Proof.
  intros Hbd Hcs. revert bd Hbd.
  induction Hcs as [|c cs Hc _ IH]; intros bd Hbd; [exact Hbd|].
  apply IH. now apply alc_passo.
Qed.

(** C5. In every state the application reaches, resolving a date returns
    the match of that date when there is one and otherwise adds a single
    new one; resolving it again, any number of times, changes nothing more,
    and the date never has more than one match. *)
Theorem garante_partida_idempotente (bd : BD) (d : date) :
  alcancavel bd ->
  (forall p, partida_da_data d bd = Some p -> garante_partida d bd = (p, bd))
  /\ (partida_da_data d bd = None ->
      exists p,
        Partida.data p = d
        /\ garante_partida d bd
           = (p, mk_bd (jogadores bd) (partidas bd ++ [p]) (estatisticas bd)))
  /\ (List.length (partidas_na_data d bd) <= 1)%nat
  /\ forall n,
       resolve_n (S n) d bd = snd (garante_partida d bd)
       /\ fst (garante_partida d (resolve_n (S n) d bd))
          = fst (garante_partida d bd)
       /\ partidas_na_data d (resolve_n (S n) d bd)
          = [fst (garante_partida d bd)].
Proof.
  intros Hbd. apply alcancavel_uma_por_data in Hbd.
  split; [apply garante_partida_achada|].
  split.
  { intros Hf. eexists. split; [|apply (garante_partida_nova _ _ Hf)].
    reflexivity. }
  split; [apply Hbd|].
  intros n. rewrite resolve_n_uma_vez, garante_partida_de_novo.
  split; [reflexivity|]. split; [reflexivity|].
  pose proof (garante_partida_conta d bd Hbd) as Hc.
  destruct (partida_da_data d bd) as [p|] eqn:Hf.
  - rewrite (garante_partida_achada _ _ _ Hf) in *. simpl in *.
    apply find_Some_filter in Hf. destruct Hf as (r & Hr).
    unfold partidas_na_data in *. rewrite Hr in *.
    destruct r; [reflexivity|discriminate].
  - rewrite (garante_partida_nova _ _ Hf) in *. simpl in *.
    unfold partidas_na_data in *. simpl in *.
    rewrite filter_snoc in *. simpl in *. rewrite date_eqb_refl in *.
    apply find_None_filter in Hf. rewrite Hf. reflexivity.
Qed.

Lemma garante_partida_idempotente_witness :
  alcancavel bd_rodada
  /\ partidas_na_data (mk_date 2024 5 2)
       (resolve_n 3 (mk_date 2024 5 2) bd_rodada)
     = [Partida.mk 1 (mk_date 2024 5 2)]
  /\ List.length (partidas (resolve_n 3 (mk_date 2024 5 3) bd_rodada)) = 2%nat.
Proof.
  assert (H : alcancavel bd_rodada).
  { apply alcancavel_executa; [|repeat constructor].
    apply alcancavel_executa; [apply alc_vazio|repeat constructor]. }
  split; [exact H|]. split.
  - apply (proj2 (proj2 (proj2 (proj2
             (garante_partida_idempotente bd_rodada (mk_date 2024 5 2) H))) 2%nat)).
  - rewrite (proj1 (proj2 (proj2 (proj2
               (garante_partida_idempotente bd_rodada (mk_date 2024 5 3) H))) 2%nat)).
    reflexivity.
Defined.

(** ** Saving the form *)

Lemma mesma_chave_atribui (pid jid g a v m s : Z) (e : Estatistica.t) :
  mesma_chave pid jid (atribui g a v m s e) = mesma_chave pid jid e.
Proof. reflexivity. Qed.

Lemma mesma_chave_outra (pid jid pid' jid' : Z) (e : Estatistica.t) :
  (pid', jid') <> (pid, jid) ->
  mesma_chave pid jid e = true -> mesma_chave pid' jid' e = false.
Proof.
  unfold mesma_chave. intros Hne H.
  apply andb_true_iff in H. destruct H as [H1 H2].
  apply Z.eqb_eq in H1, H2. apply andb_false_iff.
  destruct (Z.eqb_spec (Estatistica.partida_id e) pid'); auto.
  destruct (Z.eqb_spec (Estatistica.jogador_id e) jid'); auto.
  elim Hne. congruence.
Qed.

Section Altera.

Variables p q : Estatistica.t -> bool.
Variable f : Estatistica.t -> Estatistica.t.
Hypothesis p_f : forall e, p (f e) = p e.
Hypothesis q_f : forall e, q (f e) = q e.

Lemma filter_altera_mesma (l : list Estatistica.t) :
  filter p (altera_primeira p f l)
  = match filter p l with
    | [] => []
    | e :: r => f e :: r
    end.
Proof.
  induction l as [|e l IH]; simpl; [reflexivity|].
  destruct (p e) eqn:He; simpl.
  - now rewrite p_f, He.
  - now rewrite He.
Qed.

Lemma filter_altera_outra (l : list Estatistica.t) :
  (forall e, p e = true -> q e = false) ->
  filter q (altera_primeira p f l) = filter q l.
Proof.
  intros Hpq. induction l as [|e l IH]; simpl; [reflexivity|].
  destruct (p e) eqn:He; simpl.
  - now rewrite q_f, (Hpq e He).
  - now rewrite IH.
Qed.

Lemma altera_primeira_fixa (l : list Estatistica.t) :
  (forall e, find p l = Some e -> f e = e) -> altera_primeira p f l = l.
Proof.
  induction l as [|e l IH]; simpl; [reflexivity|].
  destruct (p e); intros H.
  - now rewrite H.
  - now rewrite IH.
Qed.

End Altera.

Section Gravacao.

Variable f : MultiDict.
Variable pid : Z.

Lemma salva_jogador_eq (ests : list Estatistica.t) (j : Jogador.t) :
  salva_jogador f pid ests j
  = match find (mesma_chave pid (Jogador.id j)) ests with
    | Some _ =>
        altera_primeira (mesma_chave pid (Jogador.id j))
          (grava f (Jogador.id j)) ests
    | None =>
        (ests ++
         [grava f (Jogador.id j)
            (Estatistica.mk (prox_id (map Estatistica.id ests)) pid
               (Jogador.id j) None None None None None)])%list
    end.
Proof. reflexivity. Qed.

Lemma grava_contadores (jid : Z) (e : Estatistica.t) :
  contadores (grava f jid e) = valores_do_form f jid.
Proof. reflexivity. Qed.

Lemma grava_fixa (jid : Z) (e : Estatistica.t) :
  contadores e = valores_do_form f jid -> grava f jid e = e.
Proof.
  destruct e. unfold contadores, valores_do_form, grava, atribui. simpl.
  intros [= -> -> -> -> ->]. reflexivity.
Qed.

Lemma salva_jogador_mesma (ests : list Estatistica.t) (j : Jogador.t) :
  exists e,
    contadores e = valores_do_form f (Jogador.id j)
    /\ linhas_de pid (Jogador.id j) (salva_jogador f pid ests j)
       = e :: tl (linhas_de pid (Jogador.id j) ests).
Proof.
  rewrite salva_jogador_eq. unfold linhas_de.
  destruct (find _ ests) as [e0|] eqn:Hf.
  - rewrite filter_altera_mesma by reflexivity.
    apply find_Some_filter in Hf. destruct Hf as (r & ->).
    eexists. split; [|reflexivity]. apply grava_contadores.
  - rewrite filter_snoc. apply find_None_filter in Hf. rewrite Hf. simpl.
    unfold mesma_chave. simpl. rewrite !Z.eqb_refl. simpl.
    eexists. split; [|reflexivity]. apply grava_contadores.
Qed.

Lemma salva_jogador_outra (ests : list Estatistica.t) (j : Jogador.t)
  (pid' jid' : Z) :
  (pid', jid') <> (pid, Jogador.id j) ->
  linhas_de pid' jid' (salva_jogador f pid ests j) = linhas_de pid' jid' ests.
Proof.
  intros Hne. rewrite salva_jogador_eq. unfold linhas_de.
  destruct (find _ ests) as [e0|] eqn:Hf.
  - apply filter_altera_outra; [reflexivity|].
    intros e. now apply mesma_chave_outra.
  - rewrite filter_snoc.
    rewrite (mesma_chave_outra pid (Jogador.id j) pid' jid' _ Hne).
    + apply app_nil_r.
    + unfold mesma_chave. simpl. now rewrite !Z.eqb_refl.
Qed.

Lemma par_eq_dec (a b : Z * Z) : a = b \/ a <> b.
Proof.
  destruct a as [a1 a2], b as [b1 b2].
  destruct (Z.eq_dec a1 b1), (Z.eq_dec a2 b2);
    try (right; congruence). left. congruence.
Qed.

Lemma salva_jogador_sem_repetidas (ests : list Estatistica.t) (j : Jogador.t) :
  sem_repetidas ests -> sem_repetidas (salva_jogador f pid ests j).
Proof.
  intros Hu pid' jid'.
  destruct (par_eq_dec (pid', jid') (pid, Jogador.id j)) as [E|Hne].
  - injection E as -> ->.
    destruct (salva_jogador_mesma ests j) as (e & _ & ->).
    specialize (Hu pid (Jogador.id j)).
    destruct (linhas_de pid (Jogador.id j) ests); simpl in *; lia.
  - rewrite (salva_jogador_outra _ _ _ _ Hne). apply Hu.
Qed.

Lemma salva_jogador_grava (ests : list Estatistica.t) (j : Jogador.t) :
  sem_repetidas ests -> gravada f pid (Jogador.id j) (salva_jogador f pid ests j).
Proof.
  intros Hu. destruct (salva_jogador_mesma ests j) as (e & He & Hl).
  exists e. split; [|exact He]. rewrite Hl.
  specialize (Hu pid (Jogador.id j)).
  destruct (linhas_de pid (Jogador.id j) ests) as [|x [|y r]];
    simpl in *; try reflexivity. lia.
Qed.

Lemma salva_jogador_mantem (ests : list Estatistica.t) (j : Jogador.t)
  (jid : Z) :
  gravada f pid jid ests -> gravada f pid jid (salva_jogador f pid ests j).
Proof.
  intros (e & Hl & He).
  destruct (Z.eq_dec jid (Jogador.id j)) as [->|Hne].
  - destruct (salva_jogador_mesma ests j) as (e' & He' & Hl').
    exists e'. rewrite Hl', Hl. auto.
  - exists e. rewrite salva_jogador_outra by congruence. auto.
Qed.

Lemma salva_todos_sem_repetidas (jogs : list Jogador.t)
  (ests : list Estatistica.t) :
  sem_repetidas ests ->
  sem_repetidas (fold_left (salva_jogador f pid) jogs ests).
Proof.
  revert ests. induction jogs as [|j jogs IH]; intros ests Hu; simpl; auto.
  apply IH. now apply salva_jogador_sem_repetidas.
Qed.

Lemma salva_todos_mantem (jogs : list Jogador.t) (ests : list Estatistica.t)
  (jid : Z) :
  gravada f pid jid ests ->
  gravada f pid jid (fold_left (salva_jogador f pid) jogs ests).
Proof.
  revert ests. induction jogs as [|j jogs IH]; intros ests Hg; simpl; auto.
  apply IH. now apply salva_jogador_mantem.
Qed.

Lemma salva_todos_grava (jogs : list Jogador.t) (ests : list Estatistica.t)
  (j : Jogador.t) :
  sem_repetidas ests -> In j jogs ->
  gravada f pid (Jogador.id j) (fold_left (salva_jogador f pid) jogs ests).
Proof.
  revert ests. induction jogs as [|k jogs IH]; intros ests Hu Hin; simpl.
  - destruct Hin.
  - destruct Hin as [->|Hin].
    + apply salva_todos_mantem. now apply salva_jogador_grava.
    + apply IH; [|exact Hin]. now apply salva_jogador_sem_repetidas.
Qed.

Lemma salva_jogador_fixo (ests : list Estatistica.t) (j : Jogador.t) :
  gravada f pid (Jogador.id j) ests -> salva_jogador f pid ests j = ests.
Proof.
  intros (e & Hl & He). rewrite salva_jogador_eq. unfold linhas_de in Hl.
  destruct (find _ ests) as [e0|] eqn:Hf.
  - apply altera_primeira_fixa. intros e1 He1.
    apply find_Some_filter in He1. destruct He1 as (r & Hr).
    rewrite Hl in Hr. injection Hr as <- _. now apply grava_fixa.
  - apply find_None_filter in Hf. rewrite Hf in Hl. discriminate.
Qed.

Lemma salva_todos_fixo (jogs : list Jogador.t) (ests : list Estatistica.t) :
  (forall j, In j jogs -> gravada f pid (Jogador.id j) ests) ->
  fold_left (salva_jogador f pid) jogs ests = ests.
Proof.
  induction jogs as [|j jogs IH]; intros H; simpl; [reflexivity|].
  rewrite salva_jogador_fixo by (apply H; now left).
  apply IH. intros k Hk. apply H. now right.
Qed.

End Gravacao.

(** ** The roster in order of name *)

Lemma insere_nome_perm (j : Jogador.t) (l : list Jogador.t) :
  Permutation (insere_nome j l) (j :: l).
Proof.
  induction l as [|k l IH]; simpl; [reflexivity|].
  destruct (String.leb _ _); [reflexivity|].
  rewrite IH. apply perm_swap.
Qed.

Lemma order_by_nome_perm (l : list Jogador.t) :
  Permutation (order_by_nome l) l.
Proof.
  induction l as [|j l IH]; simpl; [reflexivity|].
  rewrite insere_nome_perm. now constructor.
Qed.

Lemma order_by_nome_In (l : list Jogador.t) (j : Jogador.t) :
  In j (order_by_nome l) <-> In j l.
Proof.
  split; apply Permutation_in;
    [|symmetry]; apply order_by_nome_perm.
Qed.

(** ** One row for each pair, in every state *)

Lemma alcancavel_sem_repetidas (P : Chamada -> Prop) (bd : BD) :
  alcancavel_por P bd -> sem_repetidas (estatisticas bd).
Proof.
  induction 1 as [|c bd _ IH _].
  - intros pid jid. simpl. lia.
  - destruct c as [req|req].
    + rewrite passo_index. destruct (data_partida req) as [d|]; [|exact IH].
      destruct (garante_partida_tabelas d bd) as [_ He].
      destruct (method req); [now rewrite He|].
      destruct (tudo_cabe (form req) bd); [|now rewrite He].
      simpl. rewrite He. now apply salva_todos_sem_repetidas.
    + rewrite (proj2 (passo_jogadores req bd)). exact IH.
Qed.

Lemma garante_partida_acha (d : date) (bd : BD) :
  partida_da_data d (snd (garante_partida d bd))
  = Some (fst (garante_partida d bd)).
Proof.
  destruct (partida_da_data d bd) as [p|] eqn:Hf.
  - rewrite (garante_partida_achada _ _ _ Hf). exact Hf.
  - rewrite (garante_partida_nova _ _ Hf). unfold partida_da_data in *.
    simpl. rewrite (find_snoc _ _ _ Hf). simpl. now rewrite date_eqb_refl.
Qed.

Lemma tudo_cabe_In (f : MultiDict) (bd : BD) :
  tudo_cabe f bd = true <->
  forall j, In j (jogadores bd) -> cabem f (Jogador.id j) = true.
Proof.
  unfold tudo_cabe. rewrite forallb_forall. split; intros H j Hj.
  - apply H. now apply order_by_nome_In.
  - apply H. now apply (proj1 (order_by_nome_In _ _)).
Qed.

(** C2, as stated, fails: a field that reads as 2^63 cannot be written,
    the POST raises and leaves no row for any player of the roster. *)
Lemma index_post_contra :
  alcancavel bd_elenco
  /\ method envio_grande = POST
  /\ index envio_grande bd_elenco = Levanta OverflowError
  /\ ~ (forall j, In j (jogadores bd_elenco) ->
        exists e,
          linhas_de 1 (Jogador.id j)
            (estatisticas (passo (ChamaIndex envio_grande) bd_elenco))
          = [e]).
Proof.
  split; [apply alcancavel_executa; [apply alc_vazio|repeat constructor]|].
  split; [reflexivity|]. split; [vm_compute; reflexivity|].
  intros H. destruct (H (Jogador.mk 1 "Zeca" (Some false))) as (e & He).
  - vm_compute. auto.
  - vm_compute in He. discriminate He.
Qed.

(** C2, amended.  A POST to the index route, in a state the application
    reaches and with a date that resolves, either can be written or
    cannot.  When every value read for a player of the roster fits 64
    bits, it is answered with the redirect and leaves, for every player of
    the roster, exactly one row for the pair of the resolved match and the
    player, holding the five values read from the fields of that player:
    made when there was none, overwritten when there was one; the same
    submission once more changes nothing.  When some value does not fit,
    the POST raises [OverflowError] and no row is made or changed. *)
Theorem index_post_grava (req : Pedido) (bd : BD) (d : date) :
  alcancavel bd -> method req = POST -> data_partida req = Ok d ->
  (tudo_cabe (form req) bd = true ->
   exists bd',
     index req bd = Ok (Redireciona d, bd')
     /\ jogadores bd' = jogadores bd
     /\ partida_da_data d bd' = Some (fst (garante_partida d bd))
     /\ (forall j, In j (jogadores bd) ->
           exists e,
             linhas_de (Partida.id (fst (garante_partida d bd)))
               (Jogador.id j) (estatisticas bd') = [e]
             /\ contadores e = valores_do_form (form req) (Jogador.id j))
     /\ index req bd' = Ok (Redireciona d, bd'))
  /\ (tudo_cabe (form req) bd = false ->
      index req bd = Levanta OverflowError
      /\ estatisticas (passo (ChamaIndex req) bd) = estatisticas bd).
Proof.
  intros Hbd Hm Hd. split; intros Hc.
  - destruct (garante_partida_tabelas d bd) as [Hj He].
    set (p := fst (garante_partida d bd)) in *.
    set (bd1 := snd (garante_partida d bd)) in *.
    set (bd' := salva_estatisticas (form req) (Partida.id p)
                  (order_by_nome (jogadores bd1)) bd1).
    assert (Hi : index req bd = Ok (Redireciona d, bd'))
      by apply (index_post req bd d Hm Hd Hc).
    assert (Hp : partida_da_data d bd' = Some p)
      by apply garante_partida_acha.
    assert (Hg : forall j, In j (jogadores bd) ->
                   gravada (form req) (Partida.id p) (Jogador.id j)
                     (estatisticas bd')).
    { intros j Hin. unfold bd'. simpl. apply salva_todos_grava.
      - rewrite He. exact (alcancavel_sem_repetidas _ bd Hbd).
      - apply order_by_nome_In. now rewrite Hj. }
    exists bd'. split; [exact Hi|]. split; [exact Hj|]. split; [exact Hp|].
    split; [exact Hg|].
    assert (Hc' : tudo_cabe (form req) bd' = true).
    { apply tudo_cabe_In. intros j Hin. apply (proj1 (tudo_cabe_In _ bd) Hc).
      change (jogadores bd') with (jogadores bd1) in Hin. now rewrite <- Hj. }
    rewrite (index_post req bd' d Hm Hd Hc').
    rewrite (garante_partida_achada _ _ _ Hp). simpl.
    f_equal. f_equal. unfold salva_estatisticas.
    rewrite salva_todos_fixo.
    + destruct bd'. reflexivity.
    + intros j Hin. apply Hg. apply (proj1 (order_by_nome_In _ _)) in Hin.
      change (jogadores bd') with (jogadores bd1) in Hin. now rewrite <- Hj.
  - split.
    + rewrite (index_post_eq req bd d Hm Hd), Hc. reflexivity.
    + rewrite passo_index, Hd, Hm, Hc. apply garante_partida_tabelas.
Qed.

Lemma index_post_grava_witness :
  index envio bd_elenco = Ok (Redireciona (mk_date 2024 5 2), bd_rodada)
  /\ index envio bd_rodada = Ok (Redireciona (mk_date 2024 5 2), bd_rodada)
  /\ linhas_de 1 1 (estatisticas bd_rodada) = [linha_zeca]
  /\ index envio_grande bd_elenco = Levanta OverflowError.
Proof.
  assert (H : alcancavel bd_elenco)
    by (apply alcancavel_executa; [apply alc_vazio|repeat constructor]).
  destruct (proj1 (index_post_grava envio bd_elenco (mk_date 2024 5 2) H
                     eq_refl eq_refl))
    as (bd' & Hi & _ & _ & _ & Hi2); [vm_compute; reflexivity|].
  assert (E : bd' = bd_rodada).
  { assert (E0 : index envio bd_elenco
                 = Ok (Redireciona (mk_date 2024 5 2), bd_rodada))
      by (vm_compute; reflexivity).
    rewrite E0 in Hi. injection Hi as Hi. now symmetry. }
  subst bd'. split; [exact Hi|]. split; [exact Hi2|].
  split; [vm_compute; reflexivity|].
  apply (proj2 (index_post_grava envio_grande bd_elenco (mk_date 2024 5 2) H
                  eq_refl eq_refl)).
  vm_compute. reflexivity.
Defined.

(** ** When the index view raises *)

Lemma nova_date_levanta (a b c : Z) (e : excecao) :
  nova_date a b c = Levanta e <->
  (ints_de_c a b c /\ ~ calendario a b c /\ e = ValueError)
  \/ (~ ints_de_c a b c /\ e = OverflowError).
Proof.
  pose proof (nova_date_spec a b c) as H.
  pose proof (cabe_int_calendario a b c) as Hc.
  destruct (nova_date a b c) as [d|[|]]; split.
  - discriminate.
  - destruct H as [_ H]. intros [(_ & Hn & _)|(Hn & _)]; tauto.
  - intros [= <-]. left. tauto.
  - intros [(_ & _ & ->)|(Hn & _)]; [reflexivity|tauto].
  - intros [= <-]. right. tauto.
  - intros [(Hi & _)|(_ & ->)]; [tauto|reflexivity].
Qed.

Lemma tres_inteiros_unico (s : string) (a b c a' b' c' : Z) :
  tres_inteiros s a b c -> tres_inteiros s a' b' c' ->
  a = a' /\ b = b' /\ c = c'.
Proof.
  unfold tres_inteiros. intros H H'. rewrite H in H'.
  injection H' as <- <- <-. auto.
Qed.

Lemma data_partida_levanta (req : Pedido) (e : excecao) :
  data_partida req = Levanta e <->
  exists s,
    md_get "data" (args req) = Some s /\ s <> ""
    /\ ((~ bem_formada s /\ e = ValueError)
        \/ exists a b c,
             tres_inteiros s a b c /\ nova_date a b c = Levanta e).
Proof.
  pose proof (data_partida_spec req) as H. split.
  - intros Hl. rewrite Hl in H. exact H.
  - intros (s & Hs & Hne & Hbad).
    destruct (data_partida req) as [d|e'].
    + rewrite Hs in H. destruct s as [|x s]; [now elim Hne|]. simpl in H.
      destruct H as (a & b & c & H3 & Hd).
      destruct Hbad as [[Hn _]|(a' & b' & c' & H3' & Hd')].
      * elim Hn. exists a, b, c. exact H3.
      * destruct (tres_inteiros_unico _ _ _ _ _ _ _ H3 H3') as (<- & <- & <-).
        congruence.
    + destruct H as (s' & Hs' & _ & H). rewrite Hs in Hs'.
      injection Hs' as <-.
      destruct H as [[Hn ->]|(a & b & c & H3 & Hd)];
        destruct Hbad as [[Hn' ->]|(a' & b' & c' & H3' & Hd')];
        try reflexivity.
      * elim Hn. exists a', b', c'. exact H3'.
      * elim Hn'. exists a, b, c. exact H3.
      * destruct (tres_inteiros_unico _ _ _ _ _ _ _ H3 H3') as (<- & <- & <-).
        congruence.
Qed.

(** C8, amended.  The view raises while it reads the date exactly when
    [data] is present, is not empty, and either is not three integers
    separated by dashes ([ValueError]), or its three integers fit a C [int]
    each and are no date of the calendar ([ValueError]), or one of them
    fits no C [int] ([OverflowError]).  A GET raises in no other case; a
    POST also raises [OverflowError] when a value cannot be written.
    Without [data], or with an empty one, the date raises nothing and the
    match is the one of the current date. *)
Theorem index_erro_de_data (req : Pedido) (bd : BD) :
  (forall e,
     data_partida req = Levanta e <->
     exists s,
       md_get "data" (args req) = Some s /\ s <> ""
       /\ ((~ bem_formada s /\ e = ValueError)
           \/ exists a b c,
                tres_inteiros s a b c
                /\ ((ints_de_c a b c /\ ~ calendario a b c
                     /\ e = ValueError)
                    \/ (~ ints_de_c a b c /\ e = OverflowError))))
  /\ (forall e,
        index req bd = Levanta e <->
        data_partida req = Levanta e
        \/ ((exists d, data_partida req = Ok d)
            /\ method req = POST /\ tudo_cabe (form req) bd = false
            /\ e = OverflowError))
  /\ (method req = GET ->
      forall e, index req bd = Levanta e <-> data_partida req = Levanta e)
  /\ (md_get "data" (args req) = None \/ md_get "data" (args req) = Some "" ->
      data_partida req = Ok (hoje req)
      /\ (method req = GET ->
          exists ctx bd',
            index req bd = Ok (Renderiza ctx, bd')
            /\ Partida.data (partida ctx) = hoje req)
      /\ forall resp bd',
           index req bd = Ok (resp, bd') ->
           resp = Redireciona (hoje req)
           \/ exists ctx,
                resp = Renderiza ctx
                /\ Partida.data (partida ctx) = hoje req).
Proof.
  split; [|split; [|split]].
  - intros e. rewrite data_partida_levanta. split.
    + intros (s & Hs & Hne & [H|(a & b & c & H3 & Hd)]);
        exists s; repeat split; auto.
      right. exists a, b, c. split; [exact H3|].
      now apply nova_date_levanta.
    + intros (s & Hs & Hne & [H|(a & b & c & H3 & Hd)]);
        exists s; repeat split; auto.
      right. exists a, b, c. split; [exact H3|].
      now apply nova_date_levanta.
  - intros e. apply index_levanta.
  - intros Hm e. rewrite index_levanta. split; [|now left].
    intros [H|(_ & H & _)]; [exact H|congruence].
  - intros Hn.
    assert (Hd : data_partida req = Ok (hoje req))
      by (unfold data_partida; destruct Hn as [-> | ->]; reflexivity).
    split; [exact Hd|]. split.
    + intros Hm. eexists. eexists.
      split; [apply (index_get_eq req bd _ Hm Hd)|].
      simpl. apply garante_partida_data.
    + intros resp bd' Hi. destruct (method req) eqn:Hm.
      * rewrite (index_get_eq req bd _ Hm Hd) in Hi.
        injection Hi as <- _. right. eexists. split; [reflexivity|].
        simpl. apply garante_partida_data.
      * rewrite (index_post_eq req bd _ Hm Hd) in Hi.
        destruct (tudo_cabe (form req) bd); [|discriminate].
        injection Hi as <- _. now left.
Qed.

Lemma index_erro_de_data_witness :
  index pedido_mes_13 bd_vazio = Levanta ValueError
  /\ index (mk_pedido GET [("data", "2147483648-1-1")] [] dia_1) bd_vazio
     = Levanta OverflowError
  /\ data_partida (mk_pedido GET [] [] dia_1) = Ok dia_1.
Proof.
  split; [|split].
  - apply (proj1 (proj2 (index_erro_de_data pedido_mes_13 bd_vazio))).
    left. reflexivity.
  - apply (proj1 (proj2 (proj2
             (index_erro_de_data
                (mk_pedido GET [("data", "2147483648-1-1")] [] dia_1)
                bd_vazio))) eq_refl).
    apply (proj1 (index_erro_de_data
                    (mk_pedido GET [("data", "2147483648-1-1")] [] dia_1)
                    bd_vazio)).
    exists "2147483648-1-1". split; [reflexivity|]. split; [discriminate|].
    right. exists 2147483648, 1, 1. split; [reflexivity|]. right.
    split; [|reflexivity]. intros (H & _). discriminate H.
  - apply (proj2 (proj2 (proj2
             (index_erro_de_data (mk_pedido GET [] [] dia_1) bd_vazio)))).
    left. reflexivity.
Defined.

(** ** The fields of the form *)










(** ** The order of names *)

Lemma ascii_compare_refl (x : ascii) : Ascii.compare x x = Eq.
Proof. apply N.compare_refl. Qed.

Lemma ascii_compare_lt_trans (x y z : ascii) :
  Ascii.compare x y = Lt -> Ascii.compare y z = Lt -> Ascii.compare x z = Lt.
Proof.
  unfold Ascii.compare. rewrite !N.compare_lt_iff. apply N.lt_trans.
Qed.

Lemma string_leb_trans (a b c : string) :
  String.leb a b = true -> String.leb b c = true -> String.leb a c = true.
Proof.
  unfold String.leb. revert b c.
  induction a as [|x a IH]; intros [|y b] [|z c]; simpl; try easy.
  intros H1 H2.
  destruct (Ascii.compare x y) eqn:Hxy; try discriminate;
    destruct (Ascii.compare y z) eqn:Hyz; try discriminate.
  - apply Ascii.compare_eq_iff in Hxy, Hyz. subst.
    rewrite ascii_compare_refl. now apply (IH b c).
  - apply Ascii.compare_eq_iff in Hxy. subst. now rewrite Hyz.
  - apply Ascii.compare_eq_iff in Hyz. subst. now rewrite Hxy.
  - now rewrite (ascii_compare_lt_trans _ _ _ Hxy Hyz).
Qed.

Lemma nome_le_trans (a b c : Jogador.t) :
  nome_le a b -> nome_le b c -> nome_le a c.
Proof. apply string_leb_trans. Qed.

Lemma insere_nome_ordenada (j : Jogador.t) (l : list Jogador.t) :
  StronglySorted nome_le l -> StronglySorted nome_le (insere_nome j l).
Proof.
  induction 1 as [|k l Hs IH Hk]; simpl.
  - repeat constructor.
  - destruct (String.leb (Jogador.nome j) (Jogador.nome k)) eqn:Hjk.
    + constructor; [now constructor|]. constructor; [exact Hjk|].
      eapply Forall_impl; [|exact Hk]. intros x. now apply nome_le_trans.
    + constructor; [exact IH|].
      apply (Permutation_Forall (Permutation_sym (insere_nome_perm j l))).
      constructor; [|exact Hk].
      destruct (String.leb_total (Jogador.nome j) (Jogador.nome k));
        [congruence|assumption].
Qed.

Lemma order_by_nome_ordenada (l : list Jogador.t) :
  StronglySorted nome_le (order_by_nome l).
Proof.
  induction l as [|j l IH]; simpl; [constructor|].
  now apply insere_nome_ordenada.
Qed.

(** ** The ranking *)

Lemma insere_pontos_perm (x : Linha.t) (l : list Linha.t) :
  Permutation (insere_pontos x l) (x :: l).
Proof.
  induction l as [|y l IH]; simpl; [reflexivity|].
  destruct (_ <? _); [|reflexivity].
  rewrite IH. apply perm_swap.
Qed.

Lemma ordena_pontos_perm (l : list Linha.t) : Permutation (ordena_pontos l) l.
Proof.
  induction l as [|x l IH]; simpl; [reflexivity|].
  rewrite insere_pontos_perm. now constructor.
Qed.

Section Ordem.

(** An order [R] on the entries that never puts fewer points first. *)
Variable R : Linha.t -> Linha.t -> Prop.
Hypothesis R_pontos : forall a b, R a b -> Linha.pontos a >= Linha.pontos b.

Lemma insere_pontos_ordenada (x : Linha.t) (l : list Linha.t) :
  (forall y, In y l -> Linha.pontos x < Linha.pontos y -> R y x) ->
  (forall y, In y l -> Linha.pontos x >= Linha.pontos y -> R x y) ->
  StronglySorted R l -> StronglySorted R (insere_pontos x l).
Proof.
  intros Hlt Hge Hs. induction Hs as [|y l Hs IH Hy]; simpl.
  - repeat constructor.
  - destruct (Z.ltb_spec (Linha.pontos x) (Linha.pontos y)) as [Hxy|Hxy].
    + constructor.
      * apply IH; intros z Hz; [apply Hlt|apply Hge]; now right.
      * apply (Permutation_Forall (Permutation_sym (insere_pontos_perm x l))).
        constructor; [|exact Hy]. apply Hlt; [now left|exact Hxy].
    + constructor; [now constructor|].
      constructor; [apply Hge; [now left|lia]|].
      rewrite Forall_forall in *. intros z Hz.
      apply Hge; [now right|]. specialize (R_pontos y z (Hy z Hz)). lia.
Qed.

End Ordem.

Lemma ordena_pontos_decrescente (l : list Linha.t) :
  StronglySorted pontos_ge (ordena_pontos l).
Proof.
  induction l as [|x l IH]; simpl; [constructor|].
  apply insere_pontos_ordenada; unfold pontos_ge; auto; intros; lia.
Qed.

Lemma ordena_pontos_estavel (l : list Linha.t) :
  StronglySorted (fun a b => nome_le (Linha.jogador a) (Linha.jogador b)) l ->
  StronglySorted antes (ordena_pontos l).
Proof.
  induction 1 as [|x l Hs IH Hx]; simpl; [constructor|].
  apply insere_pontos_ordenada; [| | |exact IH].
  - intros a b [H|[H _]]; lia.
  - intros y _ Hlt. left. lia.
  - intros y Hy Hge.
    apply (Permutation_in _ (ordena_pontos_perm l)) in Hy.
    rewrite Forall_forall in Hx.
    destruct (Z.eq_dec (Linha.pontos x) (Linha.pontos y)) as [E|N].
    + right. split; [exact E|]. now apply Hx.
    + left. lia.
Qed.

Lemma StronglySorted_nth {A : Type} (R : A -> A -> Prop) (l : list A) :
  StronglySorted R l ->
  forall i k a b,
    (i < k)%nat -> nth_error l i = Some a -> nth_error l k = Some b -> R a b.
Proof.
  induction 1 as [|x l Hs IH Hx]; intros i k a b Hik Ha Hb.
  - destruct i; discriminate.
  - destruct k as [|k]; [lia|]. simpl in Hb. destruct i as [|i]; simpl in Ha.
    + injection Ha as <-. rewrite Forall_forall in Hx.
      apply Hx. eapply nth_error_In; eauto.
    + apply (IH i k); auto. lia.
Qed.

(** The inner loop adds up the counters and the points of the rows. *)
Lemma soma_estat_fold (bd : BD) (l : list Estatistica.t) (acc : Linha.t) :
  fold_left (soma_estat bd) l acc
  = Linha.mk (Linha.jogador acc)
      (Linha.gols acc + soma (map (fun e => contador (Estatistica.gols e)) l))
      (Linha.assistencias acc
       + soma (map (fun e => contador (Estatistica.assistencias e)) l))
      (Linha.vitorias acc
       + soma (map (fun e => contador (Estatistica.vitorias e)) l))
      (Linha.empates acc
       + soma (map (fun e => contador (Estatistica.empates e)) l))
      (Linha.sem_gol acc
       + soma (map (fun e => contador (Estatistica.sem_gol e)) l))
      (Linha.pontos acc + soma (map (pontos_dia bd) l)).
Proof.
  revert acc. induction l as [|e l IH]; intros acc; simpl.
  - destruct acc; simpl. f_equal; lia.
  - rewrite IH. unfold soma_estat. simpl. rewrite !ou0_contador.
    f_equal; lia.
Qed.

Lemma linha_de_jogador (bd : BD) (j : Jogador.t) :
  Linha.jogador (linha_de bd j) = j.
Proof. unfold linha_de. rewrite soma_estat_fold. reflexivity. Qed.

Lemma monta_ranking_jogadores (bd : BD) (jogs : list Jogador.t) :
  Permutation (map Linha.jogador (monta_ranking bd jogs)) jogs.
Proof.
  unfold monta_ranking. rewrite ordena_pontos_perm, map_map.
  erewrite map_ext; [rewrite map_id; reflexivity|].
  apply linha_de_jogador.
Qed.

Lemma monta_ranking_estavel (bd : BD) (jogs : list Jogador.t) :
  StronglySorted nome_le jogs -> StronglySorted antes (monta_ranking bd jogs).
Proof.
  intros Hs. apply ordena_pontos_estavel.
  induction Hs as [|j l Hs IH Hj]; simpl; constructor; [exact IH|].
  rewrite Forall_forall in *. intros x Hx.
  apply in_map_iff in Hx. destruct Hx as (k & <- & Hk).
  rewrite !linha_de_jogador. now apply Hj.
Qed.

(** A GET with a date that resolves is answered with the page. *)
Lemma index_get (req : Pedido) (bd : BD) (d : date) :
  method req = GET -> data_partida req = Ok d ->
  exists ctx bd',
    index req bd = Ok (Renderiza ctx, bd')
    /\ jogadores bd' = jogadores bd
    /\ estatisticas bd' = estatisticas bd
    /\ ranking ctx = monta_ranking bd' (order_by_nome (jogadores bd')).
Proof.
  intros Hm Hd. eexists. eexists.
  split; [apply (index_get_eq req bd d Hm Hd)|].
  destruct (garante_partida_tabelas d bd) as [Hj He]. auto.
Qed.



(** C4. The ranking of the page is in order of points, never increasing
    from first to last, and has one entry for each player of the roster:
    its players are the roster, rearranged, and nothing is cut. *)
Theorem ranking_ordenado (req : Pedido) (bd : BD) (d : date) :
  method req = GET -> data_partida req = Ok d ->
  exists ctx bd',
    index req bd = Ok (Renderiza ctx, bd')
    /\ jogadores bd' = jogadores bd
    /\ StronglySorted pontos_ge (ranking ctx)
    /\ Permutation (map Linha.jogador (ranking ctx)) (jogadores bd')
    /\ List.length (ranking ctx) = List.length (jogadores bd').
Proof.
  intros Hm Hd.
  destruct (index_get req bd d Hm Hd) as (ctx & bd' & Hi & Hj & He & Hr).
  exists ctx, bd'. repeat (split; [assumption|]).
  assert (Hp : Permutation (map Linha.jogador (ranking ctx)) (jogadores bd')).
  { rewrite Hr, monta_ranking_jogadores. apply order_by_nome_perm. }
  split; [rewrite Hr; apply ordena_pontos_decrescente|].
  split; [exact Hp|].
  rewrite <- (Permutation_length Hp). now rewrite length_map.
Qed.

Lemma ranking_ordenado_witness :
  exists ctx bd',
    index consulta bd_rodada = Ok (Renderiza ctx, bd')
    /\ StronglySorted pontos_ge (ranking ctx)
    /\ List.length (ranking ctx) = 3%nat.
Proof.
  destruct (ranking_ordenado consulta bd_rodada (mk_date 2024 5 2)
              eq_refl eq_refl) as (ctx & bd' & Hi & Hj & Hs & _ & Hl).
  exists ctx, bd'. split; [exact Hi|]. split; [exact Hs|].
  rewrite Hl, Hj. reflexivity.
Defined.

(** C10. Of two entries of the ranking with the same points, the one
    listed first has the lesser name, or the same name: the roster comes in
    order of name and the sort by points keeps that order among equals. *)
Theorem ranking_empates_por_nome (req : Pedido) (bd : BD) (d : date) :
  method req = GET -> data_partida req = Ok d ->
  exists ctx bd',
    index req bd = Ok (Renderiza ctx, bd')
    /\ forall i k a b,
         (i < k)%nat ->
         nth_error (ranking ctx) i = Some a ->
         nth_error (ranking ctx) k = Some b ->
         Linha.pontos a = Linha.pontos b ->
         String.leb (Jogador.nome (Linha.jogador a))
           (Jogador.nome (Linha.jogador b)) = true.
Proof.
  intros Hm Hd.
  destruct (index_get req bd d Hm Hd) as (ctx & bd' & Hi & Hj & He & Hr).
  exists ctx, bd'. split; [exact Hi|].
  intros i k a b Hik Ha Hb Hab.
  assert (Hs : StronglySorted antes (ranking ctx)).
  { rewrite Hr. apply monta_ranking_estavel, order_by_nome_ordenada. }
  destruct (StronglySorted_nth _ _ Hs i k a b Hik Ha Hb) as [H|[_ H]].
  - lia.
  - exact H.
Qed.

Lemma ranking_empates_por_nome_witness :
  exists ctx bd',
    index consulta bd_elenco = Ok (Renderiza ctx, bd')
    /\ map (fun r => (Jogador.nome (Linha.jogador r), Linha.pontos r))
         (ranking ctx)
       = [("Ana", 0); ("Bia", 0); ("Zeca", 0)]
    /\ String.leb "Ana" "Zeca" = true.
Proof.
  destruct (ranking_empates_por_nome consulta bd_elenco (mk_date 2024 5 2)
              eq_refl eq_refl) as (ctx & bd' & Hi & H).
  exists ctx, bd'. split; [exact Hi|].
  assert (E : pagina consulta bd_elenco = Some ctx)
    by (unfold pagina; now rewrite Hi).
  vm_compute in E. injection E as <-. split; [reflexivity|].
  apply (H 0%nat 2%nat
           (Linha.mk (Jogador.mk 2 "Ana" (Some true)) 0 0 0 0 0 0)
           (Linha.mk (Jogador.mk 1 "Zeca" (Some false)) 0 0 0 0 0 0));
    [lia|reflexivity|reflexivity|reflexivity].
Defined.

(** ** The sign of the counters *)

Lemma md_get_In (k v : string) (f : MultiDict) :
  md_get k f = Some v -> In v (map snd f).
Proof.
  induction f as [|[k' v'] f IH]; simpl; [discriminate|].
  destruct (String.eqb k' k).
  - intros [= ->]. now left.
  - intros H. right. now apply IH.
Qed.

Lemma get_int_nao_negativo (f : MultiDict) (prefix campo : string) :
  (forall v n, In v (map snd f) -> python_int v = Some n -> 0 <= n) ->
  0 <= get_int f prefix campo.
Proof.
  intros Hf. unfold get_int.
  destruct (md_get (prefix ++ campo) f) as [v|] eqn:Hv.
  - destruct (python_int v) as [n|] eqn:Hn; [|lia].
    apply (Hf v n); [|exact Hn]. now apply md_get_In in Hv.
  - simpl. lia.
Qed.

Lemma altera_primeira_Forall (Q : Estatistica.t -> Prop)
  (p : Estatistica.t -> bool) (g : Estatistica.t -> Estatistica.t)
  (l : list Estatistica.t) :
  (forall e, Q (g e)) -> Forall Q l -> Forall Q (altera_primeira p g l).
Proof.
  intros Hg. induction 1 as [|e l He Hl IH]; simpl; [constructor|].
  destruct (p e); constructor; auto.
Qed.

Lemma salva_jogador_Forall (Q : Estatistica.t -> Prop) (f : MultiDict)
  (pid : Z) (ests : list Estatistica.t) (j : Jogador.t) :
  (forall e, Q (grava f (Jogador.id j) e)) ->
  Forall Q ests -> Forall Q (salva_jogador f pid ests j).
Proof.
  intros Hg Hl. rewrite salva_jogador_eq. destruct (find _ ests).
  - now apply altera_primeira_Forall.
  - apply Forall_app. split; [exact Hl|]. constructor; [apply Hg|constructor].
Qed.

Lemma salva_todos_Forall (Q : Estatistica.t -> Prop) (f : MultiDict)
  (pid : Z) (jogs : list Jogador.t) (ests : list Estatistica.t) :
  (forall jid e, Q (grava f jid e)) ->
  Forall Q ests -> Forall Q (fold_left (salva_jogador f pid) jogs ests).
Proof.
  intros Hg. revert ests.
  induction jogs as [|j jogs IH]; intros ests Hl; simpl; [exact Hl|].
  apply IH. now apply salva_jogador_Forall.
Qed.

(** C7, as stated, fails: a field that reads [-3] is stored as [-3]. *)
Lemma contador_negativo_contra :
  alcancavel bd_negativo
  /\ exists e,
       In e (estatisticas bd_negativo)
       /\ Estatistica.gols e = Some (-3)
       /\ ~ nao_negativa e.
Proof.
  split.
  - apply alcancavel_executa; [apply alc_vazio|repeat constructor].
  - exists (Estatistica.mk 1 1 1 (Some (-3)) (Some 0) (Some 0) (Some 0)
              (Some 0)).
    split; [vm_compute; auto|]. split; [reflexivity|].
    intros [H _]. simpl in H. lia.
Qed.

(** C7, amended.  In every state reached through requests none of whose
    submissions has a counter field that is read as a negative integer, no
    row has a negative counter. *)
Theorem contadores_nao_negativos (bd : BD) (e : Estatistica.t) :
  alcancavel_por sem_negativos bd ->
  In e (estatisticas bd) -> nao_negativa e.
Proof.
  intros Hbd. revert e. apply Forall_forall.
  induction Hbd as [|c bd _ IH Hc]; [constructor|].
  destruct c as [req|req].
  - rewrite passo_index. destruct (data_partida req) as [d|]; [|exact IH].
    destruct (garante_partida_tabelas d bd) as [_ He].
    destruct (method req) eqn:Hm; [now rewrite He|].
    destruct (tudo_cabe (form req) bd); [|now rewrite He].
    simpl. rewrite He. apply salva_todos_Forall; [|exact IH].
    intros jid e. unfold nao_negativa, grava. simpl.
    repeat split; apply (Hc Hm); unfold campos; simpl; tauto.
  - rewrite (proj2 (passo_jogadores req bd)). exact IH.
Qed.

Lemma contadores_nao_negativos_witness :
  alcancavel_por sem_negativos bd_rodada
  /\ In linha_ana (estatisticas bd_rodada)
  /\ nao_negativa linha_ana.
Proof.
  assert (H : alcancavel_por sem_negativos bd_rodada).
  { apply alcancavel_executa.
    - apply alcancavel_executa; [apply alc_vazio|repeat constructor].
    - constructor; [|constructor]. intros _ jid campo _.
      apply get_int_nao_negativo. intros v n Hv Hn. simpl in Hv.
      repeat (destruct Hv as [<-|Hv];
              [vm_compute in Hn; try discriminate;
               injection Hn as <-; lia|]).
      destruct Hv. }
  assert (Hin : In linha_ana (estatisticas bd_rodada))
    by (vm_compute; auto).
  split; [exact H|]. split; [exact Hin|].
  exact (contadores_nao_negativos bd_rodada linha_ana H Hin).
Defined.

(** ** New keys *)

Lemma prox_id_maior (ids : list Z) (x : Z) : In x ids -> x < prox_id ids.
Proof.
  unfold prox_id. induction ids as [|y ids IH]; cbn [fold_right In];
    [tauto|].
  intros [->|H]; [lia|]. specialize (IH H). lia.
Qed.

Lemma prox_id_positivo (ids : list Z) : 0 < prox_id ids.
Proof.
  unfold prox_id. induction ids as [|y ids IH]; cbn [fold_right]; lia.
Qed.

Lemma prox_id_novo (ids : list Z) : ~ In (prox_id ids) ids.
Proof. intros H. apply prox_id_maior in H. lia. Qed.

Lemma chaves_snoc (ids : list Z) :
  NoDup ids /\ Forall (fun i => 0 < i) ids ->
  NoDup (ids ++ [prox_id ids])
  /\ Forall (fun i => 0 < i) (ids ++ [prox_id ids]).
Proof.
  intros [Hn Hp]. split.
  - apply NoDup_app; [exact Hn|repeat constructor; tauto|].
    intros a Ha [<-|[]]. now apply prox_id_novo in Ha.
  - apply Forall_app. split; [exact Hp|].
    constructor; [apply prox_id_positivo|constructor].
Qed.

(** ** Registering a player *)

(** X1. A POST to [/jogadores] always answers with the redirect and never
    touches matches or statistics.  Without a name, or with an empty one,
    it changes nothing; with a name it adds one player at the end of the
    table, under a key no player has, a goalkeeper exactly when the field
    [goleiro] is there and not empty. *)
Theorem jogadores_view_cadastra (req : Pedido) (bd : BD) :
  method req = POST ->
  fst (jogadores_view req bd) = RedirecionaJogadores
  /\ partidas (snd (jogadores_view req bd)) = partidas bd
  /\ estatisticas (snd (jogadores_view req bd)) = estatisticas bd
  /\ (md_get "nome" (form req) = None \/ md_get "nome" (form req) = Some "" ->
      snd (jogadores_view req bd) = bd)
  /\ (forall n, md_get "nome" (form req) = Some n -> n <> "" ->
      exists j,
        jogadores (snd (jogadores_view req bd)) = (jogadores bd ++ [j])%list
        /\ Jogador.nome j = n
        /\ ~ In (Jogador.id j) (map Jogador.id (jogadores bd))
        /\ (Jogador.goleiro j = Some true <->
            exists v, md_get "goleiro" (form req) = Some v /\ v <> "")
        /\ (Jogador.goleiro j = Some false <->
            (md_get "goleiro" (form req) = None
             \/ md_get "goleiro" (form req) = Some ""))).
Proof.
  intros Hm. unfold jogadores_view. rewrite Hm.
  destruct (md_get "nome" (form req)) as [n|] eqn:Hn; simpl.
  - destruct n as [|c n]; simpl.
    + repeat split; auto. intros n [= <-] H. now elim H.
    + split; [reflexivity|]. split; [reflexivity|]. split; [reflexivity|].
      split; [intros [H|H]; discriminate|].
      intros n' [= <-] _. eexists. split; [reflexivity|]. simpl.
      split; [reflexivity|]. split; [apply prox_id_novo|].
      destruct (md_get "goleiro" (form req)) as [[|c' v]|]; simpl.
      * split; split; auto; try discriminate.
        intros (v & [= <-] & H). now elim H.
      * split; split; try discriminate; auto.
        -- intros _. eexists. split; [reflexivity|discriminate].
        -- intros [H|H]; discriminate.
      * split; split; auto; try discriminate.
        intros (v & H & _). discriminate.
  - repeat split; auto. intros n H. discriminate.
Qed.

Lemma jogadores_view_cadastra_witness :
  jogadores
    (snd (jogadores_view
            (mk_pedido POST [] [("nome", "Edu"); ("goleiro", "on")] dia_1)
            bd_elenco))
  = (jogadores bd_elenco ++ [Jogador.mk 4 "Edu" (Some true)])%list
  /\ snd (jogadores_view (mk_pedido POST [] [("nome", "")] dia_1) bd_elenco)
     = bd_elenco.
Proof.
  split; [reflexivity|].
  apply (jogadores_view_cadastra
           (mk_pedido POST [] [("nome", "")] dia_1) bd_elenco eq_refl).
  right. reflexivity.
Defined.

(** ** What every state the application reaches keeps *)

Lemma garante_partida_esta (d : date) (bd : BD) :
  In (fst (garante_partida d bd)) (partidas (snd (garante_partida d bd))).
Proof.
  pose proof (garante_partida_acha d bd) as H.
  unfold partida_da_data in H. now apply find_some in H.
Qed.

(** A property of the database that the three ways of writing keep holds
    in every state. *)
Lemma alcancavel_mantem (Inv : BD -> Prop) :
  Inv bd_vazio ->
  (forall d bd, Inv bd -> Inv (snd (garante_partida d bd))) ->
  (forall f p bd,
     Inv bd -> In p (partidas bd) ->
     Inv (salva_estatisticas f (Partida.id p) (order_by_nome (jogadores bd))
            bd)) ->
  (forall req bd, Inv bd -> Inv (snd (jogadores_view req bd))) ->
  forall P bd, alcancavel_por P bd -> Inv bd.
Proof.
  intros H0 Hg Hs Hj P bd Hbd.
  induction Hbd as [|c bd _ IH _]; [exact H0|].
  destruct c as [req|req]; [|now apply Hj].
  rewrite passo_index. destruct (data_partida req) as [d|]; [|exact IH].
  destruct (method req); [now apply Hg|].
  destruct (tudo_cabe (form req) bd); [|now apply Hg].
  apply Hs; [now apply Hg|apply garante_partida_esta].
Qed.

Lemma altera_primeira_map {B : Type} (h : Estatistica.t -> B)
  (p : Estatistica.t -> bool) (g : Estatistica.t -> Estatistica.t)
  (l : list Estatistica.t) :
  (forall e, h (g e) = h e) -> map h (altera_primeira p g l) = map h l.
Proof.
  intros Hh. induction l as [|e l IH]; simpl; [reflexivity|].
  destruct (p e); simpl; [now rewrite Hh|now rewrite IH].
Qed.

(** The loop keeps the rows in place, with their keys, and adds at the
    end the row of a pair that had none. *)
Lemma salva_jogador_triplas (f : MultiDict) (pid : Z)
  (ests : list Estatistica.t) (j : Jogador.t) :
  map tripla (salva_jogador f pid ests j)
  = (map tripla ests
     ++ match find (mesma_chave pid (Jogador.id j)) ests with
        | Some _ => []
        | None => [(prox_id (map Estatistica.id ests), pid, Jogador.id j)]
        end)%list.
Proof.
  rewrite salva_jogador_eq. destruct (find _ ests).
  - rewrite altera_primeira_map by reflexivity. now rewrite app_nil_r.
  - rewrite map_app. reflexivity.
Qed.

Lemma salva_todos_mantem_Q (Q : list Estatistica.t -> Prop) (f : MultiDict)
  (pid : Z) (jogs : list Jogador.t) :
  (forall ests j, In j jogs -> Q ests -> Q (salva_jogador f pid ests j)) ->
  forall ests, Q ests -> Q (fold_left (salva_jogador f pid) jogs ests).
Proof.
  induction jogs as [|j jogs IH]; intros Hq ests He; simpl; [exact He|].
  apply IH.
  - intros ests' k Hk. apply Hq. now right.
  - apply Hq; [now left|exact He].
Qed.

Lemma map_id_tripla (l : list Estatistica.t) :
  map Estatistica.id l = map (fun t => fst (fst t)) (map tripla l).
Proof. rewrite map_map. reflexivity. Qed.

Lemma salva_jogador_ids (f : MultiDict) (pid : Z)
  (ests : list Estatistica.t) (j : Jogador.t) :
  NoDup (map Estatistica.id ests)
  /\ Forall (fun i => 0 < i) (map Estatistica.id ests) ->
  NoDup (map Estatistica.id (salva_jogador f pid ests j))
  /\ Forall (fun i => 0 < i) (map Estatistica.id (salva_jogador f pid ests j)).
Proof.
  intros H. rewrite (map_id_tripla (salva_jogador f pid ests j)).
  rewrite salva_jogador_triplas, map_app, <- map_id_tripla.
  destruct (find _ ests); simpl.
  - now rewrite app_nil_r.
  - now apply chaves_snoc.
Qed.

Lemma alcancavel_ids (P : Chamada -> Prop) (bd : BD) :
  alcancavel_por P bd -> ids_distintos bd.
Proof.
  revert bd. apply (alcancavel_mantem ids_distintos); unfold ids_distintos.
  - simpl. repeat split; constructor.
  - intros d bd (Hj & Hp & He).
    destruct (partida_da_data d bd) as [p|] eqn:Hf.
    + rewrite (garante_partida_achada _ _ _ Hf). auto.
    + rewrite (garante_partida_nova _ _ Hf). simpl.
      repeat split; try tauto; rewrite map_app; now apply chaves_snoc.
  - intros f p bd (Hj & Hp & He) _. simpl.
    split; [exact Hj|]. split; [exact Hp|].
    apply (salva_todos_mantem_Q
             (fun l => NoDup (map Estatistica.id l)
                       /\ Forall (fun i => 0 < i) (map Estatistica.id l)));
      [|exact He].
    intros ests j _. apply salva_jogador_ids.
  - intros req bd (Hj & Hp & He). unfold jogadores_view.
    destruct (method req); simpl; [auto|].
    destruct (md_get "nome" (form req)) as [n|]; simpl; [|auto].
    destruct (nao_vazia n); simpl; [|auto].
    repeat split; try tauto; rewrite map_app; now apply chaves_snoc.
Qed.

(** X2. In every state the application reaches, the keys of each of the
    three tables are positive and no two rows of a table share one. *)
Theorem chaves_unicas (bd : BD) : alcancavel bd -> ids_distintos bd.
Proof. apply alcancavel_ids. Qed.

Lemma chaves_unicas_witness :
  alcancavel bd_rodada /\ ids_distintos bd_rodada.
Proof.
  assert (H : alcancavel bd_rodada).
  { apply alcancavel_executa; [|repeat constructor].
    apply alcancavel_executa; [apply alc_vazio|repeat constructor]. }
  split; [exact H|]. exact (chaves_unicas bd_rodada H).
Defined.

Lemma find_existe {A : Type} (p : A -> bool) (l : list A) (x : A) :
  In x l -> p x = true -> exists y, find p l = Some y.
Proof.
  intros Hin Hp. destruct (find p l) as [y|] eqn:Hf; [eauto|].
  rewrite (find_none _ _ Hf x Hin) in Hp. discriminate.
Qed.

Lemma referencia_valida_mais (bd bd' : BD) (e : Estatistica.t) :
  (forall p, In p (partidas bd) -> In p (partidas bd')) ->
  (forall j, In j (jogadores bd) -> In j (jogadores bd')) ->
  referencia_valida bd e -> referencia_valida bd' e.
Proof.
  intros Hp Hj [(p & Hpi & Hpe) (j & Hji & Hje)]. split; eauto.
Qed.

Lemma altera_primeira_Forall_se (Q : Estatistica.t -> Prop)
  (p : Estatistica.t -> bool) (g : Estatistica.t -> Estatistica.t)
  (l : list Estatistica.t) :
  (forall e, Q e -> Q (g e)) -> Forall Q l -> Forall Q (altera_primeira p g l).
Proof.
  intros Hg. induction 1 as [|e l He Hl IH]; simpl; [constructor|].
  destruct (p e); constructor; auto.
Qed.

Lemma jogadores_view_tabelas (req : Pedido) (bd : BD) :
  partidas (snd (jogadores_view req bd)) = partidas bd
  /\ estatisticas (snd (jogadores_view req bd)) = estatisticas bd.
Proof. apply passo_jogadores. Qed.

Lemma alcancavel_referencias (P : Chamada -> Prop) (bd : BD) :
  alcancavel_por P bd -> Forall (referencia_valida bd) (estatisticas bd).
Proof.
  revert bd.
  apply (alcancavel_mantem
           (fun bd => Forall (referencia_valida bd) (estatisticas bd))).
  - constructor.
  - intros d bd H. destruct (garante_partida_tabelas d bd) as [Hj He].
    rewrite He. eapply Forall_impl; [|exact H]. intros e.
    apply referencia_valida_mais; [|now rewrite Hj].
    intros p Hp. destruct (partida_da_data d bd) as [q|] eqn:Hf.
    + now rewrite (garante_partida_achada _ _ _ Hf).
    + rewrite (garante_partida_nova _ _ Hf). simpl.
      apply in_or_app. now left.
  - intros f p bd H Hp. simpl.
    apply (salva_todos_mantem_Q (Forall (referencia_valida bd))); [|exact H].
    intros ests j Hj Hq. rewrite salva_jogador_eq. destruct (find _ ests).
    + apply altera_primeira_Forall_se; [|exact Hq]. intros e He. exact He.
    + apply Forall_app. split; [exact Hq|].
      constructor; [|constructor]. split; simpl.
      * exists p. auto.
      * exists j. split; [|reflexivity].
        now apply (proj1 (order_by_nome_In _ _)) in Hj.
  - intros req bd H.
    assert (He : estatisticas (snd (jogadores_view req bd)) = estatisticas bd)
      by apply passo_jogadores.
    assert (Hp : partidas (snd (jogadores_view req bd)) = partidas bd)
      by apply passo_jogadores.
    rewrite He. eapply Forall_impl; [|exact H]. intros e.
    apply referencia_valida_mais; [now rewrite Hp|].
    intros j Hj. unfold jogadores_view. destruct (method req); simpl; auto.
    destruct (md_get "nome" (form req)) as [n|]; simpl; auto.
    destruct (nao_vazia n); simpl; auto. apply in_or_app. now left.
Qed.

(** X3. In every state the application reaches, each row of statistics
    points to a match of the table and to a player of the table, and the
    relationship [jogador] of the row resolves to a player with the key the
    row holds: no row is an orphan. *)
Theorem referencias_validas (bd : BD) (e : Estatistica.t) :
  alcancavel bd -> In e (estatisticas bd) ->
  (exists p, In p (partidas bd) /\ Partida.id p = Estatistica.partida_id e)
  /\ exists j,
       jogador_de bd e = Some j
       /\ In j (jogadores bd)
       /\ Jogador.id j = Estatistica.jogador_id e.
Proof.
  intros Hbd He. apply alcancavel_referencias in Hbd.
  rewrite Forall_forall in Hbd. destruct (Hbd e He) as [Hp (j & Hj & Hje)].
  split; [exact Hp|]. unfold jogador_de.
  destruct (find_existe (fun k => Jogador.id k =? Estatistica.jogador_id e)
              (jogadores bd) j Hj) as (k & Hk).
  - now apply Z.eqb_eq.
  - exists k. split; [exact Hk|]. apply find_some in Hk.
    destruct Hk as [Hin Hid]. apply Z.eqb_eq in Hid. auto.
Qed.

Lemma referencias_validas_witness :
  alcancavel bd_rodada
  /\ In linha_ana (estatisticas bd_rodada)
  /\ jogador_de bd_rodada linha_ana = Some (Jogador.mk 2 "Ana" (Some true)).
Proof.
  assert (H : alcancavel bd_rodada).
  { apply alcancavel_executa; [|repeat constructor].
    apply alcancavel_executa; [apply alc_vazio|repeat constructor]. }
  assert (Hin : In linha_ana (estatisticas bd_rodada)) by (vm_compute; auto).
  split; [exact H|]. split; [exact Hin|].
  destruct (referencias_validas bd_rodada linha_ana H Hin)
    as (_ & j & Hj & _).
  reflexivity.
Defined.

Lemma alcancavel_preenchidas (P : Chamada -> Prop) (bd : BD) :
  alcancavel_por P bd -> Forall preenchida (estatisticas bd).
Proof.
  revert bd.
  apply (alcancavel_mantem (fun bd => Forall preenchida (estatisticas bd))).
  - constructor.
  - intros d bd H. now rewrite (proj2 (garante_partida_tabelas d bd)).
  - intros f p bd H _. simpl. apply salva_todos_Forall; [|exact H].
    intros jid e. unfold preenchida. do 5 eexists. reflexivity.
  - intros req bd H. now rewrite (proj2 (jogadores_view_tabelas req bd)).
Qed.

(** X4. In every state the application reaches, no row of statistics has
    a null counter: the form handler assigns all five before the row is
    written, so [x or 0] in the scoring and in the totals never stands in
    for a missing value. *)
Theorem contadores_preenchidos (bd : BD) (e : Estatistica.t) :
  alcancavel bd -> In e (estatisticas bd) ->
  preenchida e
  /\ Estatistica.gols e <> None
  /\ Estatistica.assistencias e <> None
  /\ Estatistica.vitorias e <> None
  /\ Estatistica.empates e <> None
  /\ Estatistica.sem_gol e <> None.
Proof.
  intros Hbd He. apply alcancavel_preenchidas in Hbd.
  rewrite Forall_forall in Hbd. specialize (Hbd e He).
  split; [exact Hbd|].
  destruct Hbd as (g & a & w & d & s & H). unfold contadores in H.
  injection H as -> -> -> -> ->. repeat split; discriminate.
Qed.

Lemma contadores_preenchidos_witness :
  alcancavel bd_rodada
  /\ In linha_zeca (estatisticas bd_rodada)
  /\ preenchida linha_zeca.
Proof.
  assert (H : alcancavel bd_rodada).
  { apply alcancavel_executa; [|repeat constructor].
    apply alcancavel_executa; [apply alc_vazio|repeat constructor]. }
  assert (Hin : In linha_zeca (estatisticas bd_rodada)) by (vm_compute; auto).
  split; [exact H|]. split; [exact Hin|].
  exact (proj1 (contadores_preenchidos bd_rodada linha_zeca H Hin)).
Defined.

(** ** Nothing is ever deleted *)

Lemma cresce_refl {A : Type} (l : list A) : cresce l l.
Proof. exists []. now rewrite app_nil_r. Qed.

Lemma cresce_trans {A : Type} (l1 l2 l3 : list A) :
  cresce l1 l2 -> cresce l2 l3 -> cresce l1 l3.
Proof.
  intros (r & ->) (r' & ->). exists (r ++ r')%list. now rewrite app_assoc.
Qed.

Lemma cresce_snoc {A : Type} (l : list A) (x : A) : cresce l (l ++ [x]).
Proof. now exists [x]. Qed.

Lemma salva_todos_cresce (f : MultiDict) (pid : Z) (jogs : list Jogador.t)
  (ests : list Estatistica.t) :
  cresce (map tripla ests)
    (map tripla (fold_left (salva_jogador f pid) jogs ests)).
Proof.
  apply (salva_todos_mantem_Q
           (fun l => cresce (map tripla ests) (map tripla l)));
    [|apply cresce_refl].
  intros l j _ H. eapply cresce_trans; [exact H|].
  rewrite salva_jogador_triplas. eexists. reflexivity.
Qed.

(** X5. No request deletes anything: after any request to either route,
    whether it is answered or raises, each table still begins with the rows
    it had, the players and the matches unchanged and every row of
    statistics with the key, the match and the player it had. *)
Theorem passo_nada_apaga (c : Chamada) (bd : BD) :
  cresce (jogadores bd) (jogadores (passo c bd))
  /\ cresce (partidas bd) (partidas (passo c bd))
  /\ cresce (map tripla (estatisticas bd))
       (map tripla (estatisticas (passo c bd))).
Proof.
  assert (Hg : forall d,
             cresce (partidas bd) (partidas (snd (garante_partida d bd)))).
  { intros d. destruct (partida_da_data d bd) as [q|] eqn:Hf.
    - rewrite (garante_partida_achada _ _ _ Hf). apply cresce_refl.
    - rewrite (garante_partida_nova _ _ Hf). apply cresce_snoc. }
  destruct c as [req|req].
  - rewrite passo_index. destruct (data_partida req) as [d|];
      [|repeat split; apply cresce_refl].
    destruct (garante_partida_tabelas d bd) as [Hj He].
    assert (Hn : cresce (jogadores bd)
                   (jogadores (snd (garante_partida d bd)))
                 /\ cresce (partidas bd)
                      (partidas (snd (garante_partida d bd)))
                 /\ cresce (map tripla (estatisticas bd))
                      (map tripla
                         (estatisticas (snd (garante_partida d bd))))).
    { rewrite Hj, He. repeat split; try apply cresce_refl. apply Hg. }
    destruct (method req); [exact Hn|].
    destruct (tudo_cabe (form req) bd); [|exact Hn]. simpl.
    rewrite Hj, He. repeat split; try apply cresce_refl; [apply Hg|].
    apply salva_todos_cresce.
  - destruct (passo_jogadores req bd) as [Hp He]. rewrite Hp, He.
    repeat split; try apply cresce_refl.
    simpl. unfold jogadores_view. destruct (method req); simpl;
      try apply cresce_refl.
    destruct (md_get "nome" (form req)) as [n|]; simpl;
      try apply cresce_refl.
    destruct (nao_vazia n); simpl; [apply cresce_snoc|apply cresce_refl].
Qed.

(** ** A submission and the other matches *)

Lemma salva_jogador_outras (f : MultiDict) (pid : Z)
  (ests : list Estatistica.t) (j : Jogador.t) :
  filter (fun e => negb (Estatistica.partida_id e =? pid))
    (salva_jogador f pid ests j)
  = filter (fun e => negb (Estatistica.partida_id e =? pid)) ests.
Proof.
  rewrite salva_jogador_eq. destruct (find _ ests).
  - apply filter_altera_outra; [reflexivity|].
    intros e He. unfold mesma_chave in He.
    apply andb_true_iff in He. destruct He as [-> _]. reflexivity.
  - rewrite filter_snoc. simpl. rewrite Z.eqb_refl. simpl.
    apply app_nil_r.
Qed.

(** X6. A submission writes only to the rows of the match it resolves:
    the rows of every other match come out of a POST as they went in, in
    the same order, whether the POST is answered, and then with the
    redirect to its date, or raises. *)
Theorem index_post_outras_partidas (req : Pedido) (bd : BD) (d : date) :
  method req = POST -> data_partida req = Ok d ->
  filter
    (fun e =>
       negb (Estatistica.partida_id e
             =? Partida.id (fst (garante_partida d bd))))
    (estatisticas (passo (ChamaIndex req) bd))
  = filter
      (fun e =>
         negb (Estatistica.partida_id e
               =? Partida.id (fst (garante_partida d bd))))
      (estatisticas bd)
  /\ forall resp bd',
       index req bd = Ok (resp, bd') ->
       resp = Redireciona d
       /\ bd' = passo (ChamaIndex req) bd.
Proof.
  intros Hm Hd. split.
  - rewrite passo_index, Hd, Hm.
    destruct (garante_partida_tabelas d bd) as [_ He].
    destruct (tudo_cabe (form req) bd); [|now rewrite He].
    simpl. rewrite <- He.
    apply (salva_todos_mantem_Q
             (fun l =>
                filter
                  (fun e =>
                     negb (Estatistica.partida_id e
                           =? Partida.id (fst (garante_partida d bd)))) l
                = filter
                    (fun e =>
                       negb (Estatistica.partida_id e
                             =? Partida.id (fst (garante_partida d bd))))
                    (estatisticas (snd (garante_partida d bd)))));
      [|reflexivity].
    intros ests j _ H. now rewrite salva_jogador_outras.
  - intros resp bd' Hi. simpl. rewrite Hi.
    rewrite (index_post_eq req bd d Hm Hd) in Hi.
    destruct (tudo_cabe (form req) bd); [|discriminate].
    injection Hi as <- <-. auto.
Qed.

Lemma index_post_outras_partidas_witness :
  filter (fun e => negb (Estatistica.partida_id e =? 2))
    (estatisticas
       (passo
          (ChamaIndex
             (mk_pedido POST [("data", "2024-05-09")] [("j1_gols", "7")]
                dia_1))
          bd_rodada))
  = estatisticas bd_rodada.
Proof.
  exact (proj1 (index_post_outras_partidas
                  (mk_pedido POST [("data", "2024-05-09")] [("j1_gols", "7")]
                     dia_1)
                  bd_rodada (mk_date 2024 5 9) eq_refl eq_refl)).
Defined.

(** ** The list of players *)

Lemma filter_Permutation {A : Type} (p : A -> bool) (l : list A) :
  Permutation (filter p l ++ filter (fun x => negb (p x)) l) l.
Proof.
  induction l as [|x l IH]; simpl; [reflexivity|].
  destruct (p x); simpl.
  - now constructor.
  - rewrite <- Permutation_middle. now constructor.
Qed.

Lemma filter_StronglySorted {A : Type} (R : A -> A -> Prop) (p : A -> bool)
  (l : list A) :
  StronglySorted R l -> StronglySorted R (filter p l).
Proof.
  induction 1 as [|x l Hs IH Hx]; simpl; [constructor|].
  destruct (p x); [|exact IH]. constructor; [exact IH|].
  rewrite Forall_forall in *. intros y Hy. apply Hx.
  now apply filter_In in Hy.
Qed.

(** X7. A GET to [/jogadores] leaves the database as it is and lists every
    player of the table once, in order of name. *)
Theorem jogadores_view_lista (req : Pedido) (bd : BD) :
  method req = GET ->
  exists lista,
    jogadores_view req bd = (RenderizaJogadores lista, bd)
    /\ Permutation lista (jogadores bd)
    /\ StronglySorted nome_le lista.
Proof.
  intros Hm. unfold jogadores_view. rewrite Hm. eexists.
  split; [reflexivity|]. split.
  - apply order_by_nome_perm.
  - apply order_by_nome_ordenada.
Qed.

Lemma jogadores_view_lista_witness :
  exists lista,
    jogadores_view consulta bd_elenco = (RenderizaJogadores lista, bd_elenco)
    /\ map Jogador.nome lista = ["Ana"; "Bia"; "Zeca"].
Proof.
  destruct (jogadores_view_lista consulta bd_elenco eq_refl)
    as (lista & H & _).
  exists lista. split; [exact H|].
  injection H as <-. reflexivity.
Defined.

(** X8. The page of the index splits the roster in two: the goalkeepers,
    whose flag is true, and the field players, whose flag is false or null.
    Every player is in exactly one of the two lists, and each list is in
    order of name. *)
Theorem index_goleiros_e_linha (req : Pedido) (bd : BD) (d : date) :
  method req = GET -> data_partida req = Ok d ->
  exists ctx bd',
    index req bd = Ok (Renderiza ctx, bd')
    /\ Permutation (goleiros ctx ++ jogadores_linha ctx) (jogadores bd)
    /\ Forall (fun j => Jogador.goleiro j = Some true) (goleiros ctx)
    /\ Forall (fun j => Jogador.goleiro j <> Some true) (jogadores_linha ctx)
    /\ StronglySorted nome_le (goleiros ctx)
    /\ StronglySorted nome_le (jogadores_linha ctx).
Proof.
  intros Hm Hd. eexists. eexists.
  split; [apply (index_get_eq req bd d Hm Hd)|]. simpl.
  rewrite (proj1 (garante_partida_tabelas d bd)).
  split; [rewrite filter_Permutation; apply order_by_nome_perm|].
  split.
  { apply Forall_forall. intros j Hj. apply filter_In in Hj.
    destruct Hj as [_ Hj]. now destruct (Jogador.goleiro j) as [[|]|]. }
  split.
  { apply Forall_forall. intros j Hj. apply filter_In in Hj.
    destruct Hj as [_ Hj]. intros E. rewrite E in Hj. discriminate. }
  split; apply filter_StronglySorted, order_by_nome_ordenada.
Qed.

Lemma index_goleiros_e_linha_witness :
  exists ctx bd',
    index consulta bd_elenco = Ok (Renderiza ctx, bd')
    /\ map Jogador.nome (goleiros ctx) = ["Ana"]
    /\ map Jogador.nome (jogadores_linha ctx) = ["Bia"; "Zeca"].
Proof.
  destruct (index_goleiros_e_linha consulta bd_elenco (mk_date 2024 5 2)
              eq_refl eq_refl) as (ctx & bd' & Hi & _).
  exists ctx, bd'. split; [exact Hi|].
  assert (E : pagina consulta bd_elenco = Some ctx)
    by (unfold pagina; now rewrite Hi).
  vm_compute in E. injection E as <-. split; reflexivity.
Defined.

(** ** The statistics of the day *)

Lemma dict_get_set {V : Type} (k k' : Z) (v : V) (d : list (Z * V)) :
  dict_get k' (dict_set k v d) = if k =? k' then Some v else dict_get k' d.
Proof.
  induction d as [|[k0 v0] d IH]; simpl.
  - reflexivity.
  - destruct (Z.eqb_spec k0 k) as [->|Hne]; simpl.
    + destruct (k =? k'); reflexivity.
    + rewrite IH. destruct (Z.eqb_spec k0 k') as [->|Hne'].
      * destruct (Z.eqb_spec k k'); [congruence|reflexivity].
      * reflexivity.
Qed.

Lemma dict_fold_get {V : Type} (F : Z -> V) (jogs : list Jogador.t)
  (d : list (Z * V)) (k : Z) :
  dict_get k
    (fold_left (fun dic j => dict_set (Jogador.id j) (F (Jogador.id j)) dic)
       jogs d)
  = if existsb (fun j => Jogador.id j =? k) jogs then Some (F k)
    else dict_get k d.
Proof.
  revert d. induction jogs as [|j jogs IH]; intros d; simpl; [reflexivity|].
  rewrite IH, dict_get_set.
  destruct (existsb _ jogs); [now rewrite orb_true_r|].
  rewrite orb_false_r.
  destruct (Z.eqb_spec (Jogador.id j) k) as [->|]; reflexivity.
Qed.

(** X9. The dictionary of the statistics of the day, on the page of the
    index, holds under the key of every player of the roster the row of
    that player for the match shown, or null when the player has none, and
    holds no other key. *)
Theorem index_estat_por_jogador (req : Pedido) (bd : BD) (d : date) :
  method req = GET -> data_partida req = Ok d ->
  exists ctx bd',
    index req bd = Ok (Renderiza ctx, bd')
    /\ (forall j, In j (jogadores bd') ->
          dict_get (Jogador.id j) (estat_por_jogador ctx)
          = Some (find (mesma_chave (Partida.id (partida ctx)) (Jogador.id j))
                    (estatisticas bd')))
    /\ (forall k, (forall j, In j (jogadores bd') -> Jogador.id j <> k) ->
          dict_get k (estat_por_jogador ctx) = None).
Proof.
  intros Hm Hd. eexists. eexists.
  split; [apply (index_get_eq req bd d Hm Hd)|]. simpl.
  set (bd1 := snd (garante_partida d bd)).
  set (pid := Partida.id (fst (garante_partida d bd))).
  split.
  - intros j Hj.
    rewrite (dict_fold_get (fun k => find (mesma_chave pid k)
                                       (estatisticas bd1))).
    replace (existsb _ _) with true; [reflexivity|].
    symmetry. apply existsb_exists. exists j.
    split; [now apply order_by_nome_In|apply Z.eqb_refl].
  - intros k Hk.
    rewrite (dict_fold_get (fun k => find (mesma_chave pid k)
                                       (estatisticas bd1))).
    destruct (existsb _ _) eqn:He; [|reflexivity].
    apply existsb_exists in He. destruct He as (j & Hj & Hid).
    apply (proj1 (order_by_nome_In _ _)) in Hj. apply Z.eqb_eq in Hid.
    now elim (Hk j Hj).
Qed.

Lemma index_estat_por_jogador_witness :
  exists ctx bd',
    index consulta bd_rodada = Ok (Renderiza ctx, bd')
    /\ dict_get 2 (estat_por_jogador ctx) = Some (Some linha_ana)
    /\ dict_get 9 (estat_por_jogador ctx) = None.
Proof.
  destruct (index_estat_por_jogador consulta bd_rodada (mk_date 2024 5 2)
              eq_refl eq_refl) as (ctx & bd' & Hi & _).
  exists ctx, bd'. split; [exact Hi|].
  assert (E : pagina consulta bd_rodada = Some ctx)
    by (unfold pagina; now rewrite Hi).
  vm_compute in E. injection E as <-. split; reflexivity.
Defined.

(** ** The ranking and the date of the page *)

Lemma linha_de_eq (bd : BD) (j : Jogador.t) :
  linha_de bd j
  = Linha.mk j
      (soma (map (fun e => contador (Estatistica.gols e))
               (estatisticas_de bd j)))
      (soma (map (fun e => contador (Estatistica.assistencias e))
               (estatisticas_de bd j)))
      (soma (map (fun e => contador (Estatistica.vitorias e))
               (estatisticas_de bd j)))
      (soma (map (fun e => contador (Estatistica.empates e))
               (estatisticas_de bd j)))
      (soma (map (fun e => contador (Estatistica.sem_gol e))
               (estatisticas_de bd j)))
      (soma (map (pontos_dia bd) (estatisticas_de bd j))).
Proof. unfold linha_de. rewrite soma_estat_fold. reflexivity. Qed.

Lemma monta_ranking_tabelas (bd bd' : BD) (jogs : list Jogador.t) :
  jogadores bd' = jogadores bd -> estatisticas bd' = estatisticas bd ->
  monta_ranking bd' jogs = monta_ranking bd jogs.
Proof.
  intros Hj He. unfold monta_ranking. f_equal. apply map_ext. intros j.
  rewrite !linha_de_eq. unfold estatisticas_de, pontos_dia, jogador_de.
  now rewrite Hj, He.
Qed.

(** X10. The ranking does not depend on the date of the page: two GETs of
    the index in one state, whatever their dates, show the same ranking,
    and it is the ranking of the tables as they were before the request. *)
Theorem ranking_sem_data (req1 req2 : Pedido) (bd : BD) (d1 d2 : date) :
  method req1 = GET -> data_partida req1 = Ok d1 ->
  method req2 = GET -> data_partida req2 = Ok d2 ->
  exists ctx1 ctx2 bd1 bd2,
    index req1 bd = Ok (Renderiza ctx1, bd1)
    /\ index req2 bd = Ok (Renderiza ctx2, bd2)
    /\ ranking ctx1 = ranking ctx2
    /\ ranking ctx1 = monta_ranking bd (order_by_nome (jogadores bd)).
Proof.
  intros Hm1 Hd1 Hm2 Hd2. do 4 eexists.
  split; [apply (index_get_eq req1 bd d1 Hm1 Hd1)|].
  split; [apply (index_get_eq req2 bd d2 Hm2 Hd2)|]. simpl.
  destruct (garante_partida_tabelas d1 bd) as [Hj1 He1].
  destruct (garante_partida_tabelas d2 bd) as [Hj2 He2].
  rewrite Hj1, Hj2.
  rewrite (monta_ranking_tabelas bd _ _ Hj1 He1).
  rewrite (monta_ranking_tabelas bd _ _ Hj2 He2). auto.
Qed.

Lemma ranking_sem_data_witness :
  exists ctx1 ctx2 bd1 bd2,
    index consulta bd_rodada = Ok (Renderiza ctx1, bd1)
    /\ index (mk_pedido GET [] [] dia_1) bd_rodada = Ok (Renderiza ctx2, bd2)
    /\ ranking ctx1 = ranking ctx2.
Proof.
  destruct (ranking_sem_data consulta (mk_pedido GET [] [] dia_1) bd_rodada
              (mk_date 2024 5 2) dia_1 eq_refl eq_refl eq_refl eq_refl)
    as (c1 & c2 & b1 & b2 & H1 & H2 & H3 & _).
  exists c1, c2, b1, b2. auto.
Defined.

(** ** Points from totals *)

Lemma find_unico (l : list Jogador.t) (j : Jogador.t) :
  NoDup (map Jogador.id l) -> In j l ->
  find (fun k => Jogador.id k =? Jogador.id j) l = Some j.
Proof.
  induction l as [|x l IH]; simpl; [tauto|].
  intros Hn Hin. apply NoDup_cons_iff in Hn. destruct Hn as [Hx Hn].
  destruct (Z.eqb_spec (Jogador.id x) (Jogador.id j)) as [E|N].
  - destruct Hin as [->|Hin]; [reflexivity|].
    elim Hx. rewrite E. now apply in_map.
  - destruct Hin as [->|Hin]; [now elim N|]. now apply IH.
Qed.

Lemma soma_cons (x : Z) (l : list Z) : soma (x :: l) = x + soma l.
Proof. reflexivity. Qed.

Lemma soma_pontos_goleiro (oj : option Jogador.t) (l : list Estatistica.t) :
  e_goleiro oj = true ->
  soma (map (pontos oj) l)
  = 2 * (soma (map (fun e => contador (Estatistica.sem_gol e)) l)
         + soma (map (fun e => contador (Estatistica.vitorias e)) l)
         + soma (map (fun e => contador (Estatistica.assistencias e)) l)
         + soma (map (fun e => contador (Estatistica.gols e)) l)).
Proof.
  intros Hg. induction l as [|e l IH]; [reflexivity|].
  rewrite !map_cons, !soma_cons, IH. unfold pontos.
  rewrite Hg, !ou0_contador. lia.
Qed.

Lemma soma_pontos_linha (oj : option Jogador.t) (l : list Estatistica.t) :
  e_goleiro oj = false ->
  soma (map (pontos oj) l)
  = 2 * soma (map (fun e => contador (Estatistica.gols e)) l)
    + 2 * soma (map (fun e => contador (Estatistica.assistencias e)) l)
    + 2 * soma (map (fun e => contador (Estatistica.vitorias e)) l)
    + 1 * soma (map (fun e => contador (Estatistica.empates e)) l).
Proof.
  intros Hg. induction l as [|e l IH]; [reflexivity|].
  rewrite !map_cons, !soma_cons, IH. unfold pontos.
  rewrite Hg, !ou0_contador. lia.
Qed.

Lemma pontos_dia_do_jogador (bd : BD) (j : Jogador.t) :
  NoDup (map Jogador.id (jogadores bd)) -> In j (jogadores bd) ->
  map (pontos_dia bd) (estatisticas_de bd j)
  = map (pontos (Some j)) (estatisticas_de bd j).
Proof.
  intros Hn Hj. apply map_ext_in. intros e He.
  unfold estatisticas_de in He. apply filter_In in He.
  destruct He as [_ He]. apply Z.eqb_eq in He.
  unfold pontos_dia, jogador_de. rewrite He. now rewrite find_unico.
Qed.

(** X11. In every state the application reaches, the points of an entry
    of the ranking follow from its own totals by the scoring rule of its
    player: twice the sum of clean sheets, wins, assists and goals for a
    goalkeeper; twice the goals, assists and wins plus the draws for the
    others. *)
Theorem ranking_pontos_dos_totais (req : Pedido) (bd : BD) (d : date) :
  alcancavel bd -> method req = GET -> data_partida req = Ok d ->
  exists ctx bd',
    index req bd = Ok (Renderiza ctx, bd')
    /\ forall r, In r (ranking ctx) ->
         (Jogador.goleiro (Linha.jogador r) = Some true ->
          Linha.pontos r
          = 2 * (Linha.sem_gol r + Linha.vitorias r
                 + Linha.assistencias r + Linha.gols r))
         /\ (Jogador.goleiro (Linha.jogador r) <> Some true ->
             Linha.pontos r
             = 2 * Linha.gols r + 2 * Linha.assistencias r
               + 2 * Linha.vitorias r + 1 * Linha.empates r).
Proof.
  intros Hbd Hm Hd. eexists. eexists.
  split; [apply (index_get_eq req bd d Hm Hd)|]. simpl.
  destruct (garante_partida_tabelas d bd) as [Hj He].
  set (bd1 := snd (garante_partida d bd)) in *.
  assert (Hn : NoDup (map Jogador.id (jogadores bd1))).
  { rewrite Hj. apply (alcancavel_ids _ bd Hbd). }
  intros r Hr. unfold monta_ranking in Hr.
  apply (Permutation_in _ (ordena_pontos_perm _)) in Hr.
  apply in_map_iff in Hr. destruct Hr as (j & <- & Hin).
  apply (proj1 (order_by_nome_In _ _)) in Hin.
  rewrite linha_de_eq. simpl.
  rewrite (pontos_dia_do_jogador bd1 j Hn Hin). split.
  - intros Hg. apply soma_pontos_goleiro. simpl. now rewrite Hg.
  - intros Hg. apply soma_pontos_linha. simpl.
    destruct (Jogador.goleiro j) as [[|]|]; try reflexivity. now elim Hg.
Qed.

Lemma ranking_pontos_dos_totais_witness :
  exists ctx bd',
    index consulta bd_rodada = Ok (Renderiza ctx, bd')
    /\ map (fun r => (Linha.sem_gol r, Linha.vitorias r, Linha.pontos r))
         (ranking ctx)
       = [(3, 2, 10); (0, 1, 9); (0, 0, 0)].
Proof.
  assert (H : alcancavel bd_rodada).
  { apply alcancavel_executa; [|repeat constructor].
    apply alcancavel_executa; [apply alc_vazio|repeat constructor]. }
  destruct (ranking_pontos_dos_totais consulta bd_rodada (mk_date 2024 5 2)
              H eq_refl eq_refl) as (ctx & bd' & Hi & _).
  exists ctx, bd'. split; [exact Hi|].
  assert (E : pagina consulta bd_rodada = Some ctx)
    by (unfold pagina; now rewrite Hi).
  vm_compute in E. injection E as <-. reflexivity.
Defined.

(** ** The text of an integer *)

Lemma letras_uint (d : Decimal.uint) :
  so_digitos (NilEmpty.string_of_uint d).
Proof.
  unfold so_digitos, letras.
  induction d; simpl; constructor; try exact IHd; discriminate.
Qed.

Lemma str_positivo (p : positive) :
  str (Zpos p) = NilEmpty.string_of_uint (Pos.to_uint p)
  /\ str (Zneg p) = String "-" (NilEmpty.string_of_uint (Pos.to_uint p)).
Proof.
  unfold str. simpl. unfold NilZero.string_of_uint.
  pose proof (DecimalPos.Unsigned.to_uint_nonnil p) as H.
  destruct (Pos.to_uint p); try tauto; auto.
Qed.

Lemma str_digitos (n : Z) : 0 <= n -> so_digitos (str n) /\ str n <> "".
Proof.
  intros Hn. destruct n as [|p|p]; [| |lia].
  - split; [repeat constructor; discriminate|discriminate].
  - rewrite (proj1 (str_positivo p)). split; [apply letras_uint|].
    pose proof (DecimalPos.Unsigned.to_uint_nonnil p) as H.
    destruct (Pos.to_uint p); try tauto; discriminate.
Qed.

Lemma string_of_uint_inj (d d' : Decimal.uint) :
  NilEmpty.string_of_uint d = NilEmpty.string_of_uint d' -> d = d'.
Proof.
  intros E. pose proof (NilEmpty.usu d) as H.
  rewrite E, NilEmpty.usu in H. now injection H.
Qed.

Lemma primeira_letra_digito (d : Decimal.uint) (s : string) :
  NilEmpty.string_of_uint d <> String "-" s.
Proof.
  intros E. pose proof (letras_uint d) as H. rewrite E in H.
  apply Forall_inv in H. now apply H.
Qed.

(** Two integers never print as the same text. *)
Lemma str_inj (a b : Z) : str a = str b -> a = b.
Proof.
  destruct a as [|p|p], b as [|q|q]; try reflexivity;
    rewrite ?(proj1 (str_positivo p)), ?(proj2 (str_positivo p)),
      ?(proj1 (str_positivo q)), ?(proj2 (str_positivo q));
    intros E.
  - change (str 0) with (NilEmpty.string_of_uint Decimal.zero) in E.
    apply string_of_uint_inj in E. symmetry in E.
    now apply DecimalPos.Unsigned.to_uint_nonzero in E.
  - discriminate E.
  - change (str 0) with (NilEmpty.string_of_uint Decimal.zero) in E.
    apply string_of_uint_inj in E.
    now apply DecimalPos.Unsigned.to_uint_nonzero in E.
  - apply string_of_uint_inj, DecimalPos.Unsigned.to_uint_inj in E.
    now subst.
  - now apply primeira_letra_digito in E.
  - discriminate E.
  - symmetry in E. now apply primeira_letra_digito in E.
  - injection E as E.
    apply string_of_uint_inj, DecimalPos.Unsigned.to_uint_inj in E.
    now subst.
Qed.

(** ** The names of the fields *)

Lemma letras_app (s t : string) : letras (s ++ t) = (letras s ++ letras t)%list.
Proof.
  unfold letras. induction s as [|c s IH]; simpl; [reflexivity|].
  now rewrite IH.
Qed.

Lemma append_assoc (s t u : string) : ((s ++ t) ++ u = s ++ (t ++ u))%string.
Proof. induction s as [|c s IH]; simpl; [reflexivity|now rewrite IH]. Qed.

Lemma so_digitos_sem_letra (c : ascii) (s : string) :
  digito c = None -> so_digitos s -> sem_letra c s.
Proof.
  intros Hc Hs. eapply Forall_impl; [|exact Hs].
  intros x Hx ->. now elim Hx.
Qed.

Lemma str_sem_sublinha (n : Z) : sem_letra "_" (str n).
Proof.
  destruct n as [|p|p].
  - repeat constructor; discriminate.
  - apply so_digitos_sem_letra; [reflexivity|].
    apply str_digitos. lia.
  - rewrite (proj2 (str_positivo p)). constructor; [discriminate|].
    apply (so_digitos_sem_letra "_" _ eq_refl), letras_uint.
Qed.

(** Two texts cut at the first occurrence of a character. *)
Lemma corta_na_letra (c : ascii) (s t x y : string) :
  sem_letra c s -> sem_letra c t ->
  (s ++ String c x = t ++ String c y)%string -> s = t /\ x = y.
Proof.
  unfold sem_letra, letras. revert t.
  induction s as [|a s IH]; intros [|b t] Hs Ht; simpl; intros E.
  - injection E as ->. auto.
  - injection E as <- _. apply Forall_inv in Ht. now elim Ht.
  - injection E as -> _. apply Forall_inv in Hs. now elim Hs.
  - injection E as -> E. simpl in Hs, Ht.
    apply Forall_inv_tail in Hs, Ht.
    destruct (IH t Hs Ht E) as [-> ->]. auto.
Qed.

(** X13. The name of a form field says whose it is and which counter:
    two names built from the prefix of a player and a field name are the
    same text only when the players have the same key and the field names
    are the same.  No field of one player is read for another. *)
Theorem campos_nao_colidem (a b : Z) (campo1 campo2 : string) :
  (prefixo a ++ campo1 = prefixo b ++ campo2)%string ->
  a = b /\ campo1 = campo2.
Proof.
  unfold prefixo. intros E.
  change ("j" ++ str a ++ "_")%string
    with (String "j" (str a ++ "_")) in E.
  change ("j" ++ str b ++ "_")%string
    with (String "j" (str b ++ "_")) in E.
  simpl in E. injection E as E. rewrite !append_assoc in E. simpl in E.
  destruct (corta_na_letra "_" _ _ _ _ (str_sem_sublinha a)
              (str_sem_sublinha b) E) as [Hs Hc].
  split; [|exact Hc].
  now apply str_inj.
Qed.

Lemma campos_nao_colidem_witness :
  (prefixo 1 ++ "gols" = "j1_gols")%string
  /\ (prefixo 11 ++ "gols" <> prefixo 1 ++ "1_gols")%string.
Proof.
  split; [reflexivity|]. intros E.
  destruct (campos_nao_colidem 11 1 "gols" "1_gols" E) as [H _].
  discriminate H.
Defined.

(** ** Splitting a text *)

Lemma split_nao_vazio (sep : ascii) (s : string) : split sep s <> [].
Proof.
  destruct s as [|c s]; simpl; [discriminate|].
  destruct (Ascii.eqb c sep); [discriminate|].
  destruct (split sep s); discriminate.
Qed.

Lemma concat_cons (sep x : string) (y : string) (l : list string) :
  String.concat sep (x :: y :: l)
  = (x ++ sep ++ String.concat sep (y :: l))%string.
Proof. reflexivity. Qed.

(** X14. [split] cuts a text at every occurrence of the separator and
    nowhere else: no part holds the separator, there is always at least one
    part, and the parts joined with the separator are the text again. *)
Theorem split_junta (sep : ascii) (s : string) :
  String.concat (String sep "") (split sep s) = s
  /\ Forall (sem_letra sep) (split sep s)
  /\ split sep s <> [].
Proof.
  split; [|split; [|apply split_nao_vazio]].
  - induction s as [|c s IH]; [reflexivity|]. simpl.
    pose proof (split_nao_vazio sep s) as Hne.
    destruct (Ascii.eqb_spec c sep) as [->|Hc].
    + destruct (split sep s) as [|h t]; [now elim Hne|].
      rewrite concat_cons, IH. reflexivity.
    + destruct (split sep s) as [|h t]; [now elim Hne|].
      destruct t as [|h' t].
      * simpl in *. now rewrite IH.
      * rewrite concat_cons. rewrite concat_cons in IH.
        rewrite <- IH. reflexivity.
  - induction s as [|c s IH]; simpl; [repeat constructor|].
    destruct (Ascii.eqb_spec c sep) as [->|Hc].
    + constructor; [constructor|exact IH].
    + destruct (split sep s) as [|h t]; [repeat constructor; auto|].
      inversion IH as [|? ? Hh Ht]; subst.
      constructor; [|exact Ht]. constructor; auto.
Qed.

(** ** The date in the address of the redirect *)

Lemma split_sem_letra (sep : ascii) (s : string) :
  sem_letra sep s -> split sep s = [s].
Proof.
  unfold sem_letra, letras. induction s as [|c s IH]; simpl; [reflexivity|].
  intros H. pose proof (Forall_inv H) as Hc. apply Forall_inv_tail in H.
  destruct (Ascii.eqb_spec c sep) as [->|_]; [now elim Hc|].
  now rewrite IH.
Qed.

Lemma split_app (sep : ascii) (s t : string) :
  sem_letra sep s ->
  split sep (s ++ String sep t) = s :: split sep t.
Proof.
  unfold sem_letra, letras. induction s as [|c s IH]; simpl.
  - intros _. now rewrite Ascii.eqb_refl.
  - intros H. pose proof (Forall_inv H) as Hc. apply Forall_inv_tail in H.
    destruct (Ascii.eqb_spec c sep) as [->|_]; [now elim Hc|].
    now rewrite IH.
Qed.

Lemma letras_zeros (k : nat) : letras (zeros k) = repeat "0"%char k.
Proof. induction k as [|k IH]; simpl; [reflexivity|]. now f_equal. Qed.

Lemma zfill_digitos (w : nat) (n : Z) :
  0 <= n -> so_digitos (zfill w n) /\ zfill w n <> "".
Proof.
  intros Hn. destruct (str_digitos n Hn) as [Hd Hne]. unfold zfill. split.
  - unfold so_digitos. rewrite letras_app, letras_zeros.
    apply Forall_app. split; [|exact Hd].
    apply Forall_forall. intros c Hc. apply repeat_spec in Hc. subst c.
    discriminate.
  - destruct (zeros _); simpl; [exact Hne|discriminate].
Qed.

Lemma confere_le (w k : nat) (n : Z) :
  confere w k = true -> 0 <= n <= Z.of_nat k ->
  python_int (zfill w n) = Some n.
Proof.
  unfold confere. rewrite forallb_forall. intros H Hn.
  specialize (H (Z.to_nat n)). rewrite Z2Nat.id in H by lia.
  destruct (python_int (zfill w n)) as [m|].
  - f_equal. apply Z.eqb_eq. apply H. apply in_seq. lia.
  - discriminate H. apply in_seq. lia.
Qed.

Lemma python_int_ano (n : Z) :
  0 <= n <= 9999 -> python_int (zfill 4 n) = Some n.
Proof.
  intros H. apply (confere_le 4 (Z.to_nat 9999)); [|lia].
  vm_compute. reflexivity.
Qed.

Lemma python_int_mes_dia (n : Z) :
  0 <= n <= 31 -> python_int (zfill 2 n) = Some n.
Proof.
  intros H. apply (confere_le 2 31); [|lia].
  vm_compute. reflexivity.
Qed.

Lemma nova_date_Ok (a m dd : Z) (d : date) :
  nova_date a m dd = Ok d ->
  d = mk_date a m dd /\ 1 <= a <= 9999 /\ 1 <= m <= 12 /\ 1 <= dd <= 31.
Proof.
  intros H. pose proof (nova_date_spec a m dd) as Hs. rewrite H in Hs.
  destruct Hs as (-> & Ha & Hm & Hd). split; [reflexivity|].
  split; [exact Ha|]. split; [exact Hm|].
  unfold dias_no_mes in Hd. destruct (m =? 2); [destruct (bissexto a); lia|].
  destruct ((m =? 4) || (m =? 6) || (m =? 9) || (m =? 11)); lia.
Qed.

Lemma isoformat_eq (d : date) :
  isoformat d
  = (zfill 4 (year d)
     ++ String "-" (zfill 2 (month d) ++ String "-" (zfill 2 (day d))))%string.
Proof. reflexivity. Qed.

Lemma le_data_isoformat (d : date) :
  data_valida d -> le_data (isoformat d) = Ok d /\ isoformat d <> "".
Proof.
  intros Hv. pose proof Hv as Hv'. unfold data_valida in Hv'.
  apply nova_date_Ok in Hv'. destruct Hv' as (_ & Hy & Hm & Hd).
  destruct (zfill_digitos 4 (year d)) as (Dy & Ny); [lia|].
  destruct (zfill_digitos 2 (month d)) as (Dm & Nm); [lia|].
  destruct (zfill_digitos 2 (day d)) as (Dd & Nd); [lia|].
  pose proof (python_int_ano (year d)) as Py.
  pose proof (python_int_mes_dia (month d)) as Pm.
  pose proof (python_int_mes_dia (day d)) as Pd.
  split.
  - unfold le_data. rewrite isoformat_eq.
    rewrite split_app by now apply so_digitos_sem_letra.
    rewrite split_app by now apply so_digitos_sem_letra.
    rewrite split_sem_letra by now apply so_digitos_sem_letra.
    simpl. unfold int. rewrite Py, Pm, Pd by lia. simpl. exact Hv.
  - rewrite isoformat_eq. destruct (zfill 4 (year d)); [now elim Ny|].
    discriminate.
Qed.

Lemma data_partida_segue (d h : date) :
  data_valida d -> data_partida (segue d h) = Ok d.
Proof.
  intros Hv. destruct (le_data_isoformat d Hv) as [Hl Hne].
  unfold data_partida, segue. simpl.
  destruct (isoformat d); [now elim Hne|]. exact Hl.
Qed.

Lemma data_partida_valida (req : Pedido) (d : date) :
  data_valida (hoje req) -> data_partida req = Ok d -> data_valida d.
Proof.
  intros Hh Hd. pose proof (data_partida_spec req) as H. rewrite Hd in H.
  assert (Hp : forall s, (exists a b c, tres_inteiros s a b c
                                       /\ nova_date a b c = Ok d) ->
                         data_valida d).
  { intros s (a & b & c & _ & Hn). pose proof Hn as Hn'.
    apply nova_date_Ok in Hn'. destruct Hn' as [-> _]. exact Hn. }
  destruct (md_get "data" (args req)) as [s|]; [|now subst].
  destruct (nao_vazia s); [now apply (Hp s)|now subst].
Qed.

(** X15. The text [isoformat] makes of a date of the calendar is read
    back by the index view as that date: it is not empty, it splits in
    three at the dashes, and the three parts are the year, the month and
    the day. *)
Theorem isoformat_volta (d h : date) :
  data_valida d ->
  le_data (isoformat d) = Ok d /\ data_partida (segue d h) = Ok d.
Proof.
  intros Hv. split; [apply (le_data_isoformat d Hv)|].
  now apply data_partida_segue.
Qed.

Lemma isoformat_volta_witness :
  isoformat (mk_date 2024 5 2) = "2024-05-02"
  /\ le_data (isoformat (mk_date 2024 5 2)) = Ok (mk_date 2024 5 2).
Proof.
  split; [reflexivity|].
  apply (isoformat_volta (mk_date 2024 5 2) dia_1). reflexivity.
Defined.

Lemma filter_um_find {A : Type} (p : A -> bool) (l : list A) (x : A) :
  filter p l = [x] -> find p l = Some x.
Proof.
  intros H. destruct (find p l) as [y|] eqn:Hf.
  - apply find_Some_filter in Hf. destruct Hf as (r & Hr).
    rewrite H in Hr. now injection Hr as ->.
  - apply find_None_filter in Hf. rewrite H in Hf. discriminate.
Qed.

(** X16. After a POST that can be written, following the redirect shows
    what was saved.  In a state the application reaches, with a clock that
    reads a date of the calendar and a form whose values for the players of
    the roster fit 64 bits, the POST is answered with the redirect; the GET
    the redirect leads to is answered with the page of the match the POST
    resolved, changes nothing in the database, and shows for every player
    of the roster a row holding the five values read from the form. *)
Theorem index_post_e_volta (req : Pedido) (bd : BD) (d h : date) :
  alcancavel bd -> data_valida (hoje req) ->
  method req = POST -> data_partida req = Ok d ->
  tudo_cabe (form req) bd = true ->
  exists bd' ctx,
    index req bd = Ok (Redireciona d, bd')
    /\ index (segue d h) bd' = Ok (Renderiza ctx, bd')
    /\ partida ctx = fst (garante_partida d bd)
    /\ Partida.data (partida ctx) = d
    /\ forall j, In j (jogadores bd) ->
         exists e,
           dict_get (Jogador.id j) (estat_por_jogador ctx) = Some (Some e)
           /\ contadores e = valores_do_form (form req) (Jogador.id j).
Proof.
  intros Hbd Hh Hm Hd Hcabe.
  pose proof (data_partida_valida req d Hh Hd) as Hv.
  pose proof (data_partida_segue d h Hv) as Hs.
  destruct (garante_partida_tabelas d bd) as [Hj He].
  set (p := fst (garante_partida d bd)) in *.
  set (bd1 := snd (garante_partida d bd)) in *.
  set (bd' := salva_estatisticas (form req) (Partida.id p)
                (order_by_nome (jogadores bd1)) bd1).
  assert (Hp : partida_da_data d bd' = Some p)
    by apply garante_partida_acha.
  assert (Hg : garante_partida d bd' = (p, bd'))
    by now apply garante_partida_achada.
  exists bd'. eexists.
  split; [apply (index_post req bd d Hm Hd Hcabe)|].
  split; [rewrite (index_get_eq (segue d h) bd' d eq_refl Hs), Hg;
          reflexivity|].
  simpl. split; [reflexivity|]. split; [apply garante_partida_data|].
  intros j Hin.
  assert (Hgr : gravada (form req) (Partida.id p) (Jogador.id j)
                  (estatisticas bd')).
  { unfold bd'. simpl. apply salva_todos_grava.
    - rewrite He. exact (alcancavel_sem_repetidas _ bd Hbd).
    - apply order_by_nome_In. now rewrite Hj. }
  destruct Hgr as (e & Hl & Hc). exists e. split; [|exact Hc].
  rewrite (dict_fold_get
             (fun k => find (mesma_chave (Partida.id p) k)
                         (estatisticas bd'))).
  replace (existsb _ _) with true.
  - f_equal. now apply filter_um_find.
  - symmetry. apply existsb_exists. exists j.
    split; [|apply Z.eqb_refl].
    apply order_by_nome_In. change (jogadores bd') with (jogadores bd1).
    now rewrite Hj.
Qed.

Lemma index_post_e_volta_witness :
  exists ctx,
    index envio bd_elenco = Ok (Redireciona (mk_date 2024 5 2), bd_rodada)
    /\ index (segue (mk_date 2024 5 2) dia_1) bd_rodada
       = Ok (Renderiza ctx, bd_rodada)
    /\ dict_get 1 (estat_por_jogador ctx) = Some (Some linha_zeca).
Proof.
  assert (H : alcancavel bd_elenco)
    by (apply alcancavel_executa; [apply alc_vazio|repeat constructor]).
  destruct (index_post_e_volta envio bd_elenco (mk_date 2024 5 2) dia_1 H
              eq_refl eq_refl eq_refl) as (bd' & ctx & Hi & Hg & _);
    [vm_compute; reflexivity|].
  assert (E0 : index envio bd_elenco
               = Ok (Redireciona (mk_date 2024 5 2), bd_rodada))
    by (vm_compute; reflexivity).
  rewrite E0 in Hi. injection Hi as <-.
  exists ctx. split; [exact E0|]. split; [exact Hg|].
  assert (E : pagina (segue (mk_date 2024 5 2) dia_1) bd_rodada = Some ctx)
    by (unfold pagina; now rewrite Hg).
  vm_compute in E. injection E as <-. reflexivity.
Defined.

(** ** The rows of a match and the roster *)

Lemma sem_repetidas_cauda (e : Estatistica.t) (l : list Estatistica.t) :
  sem_repetidas (e :: l) -> sem_repetidas l.
Proof.
  intros H pid jid. specialize (H pid jid). unfold linhas_de in *.
  simpl in H. destruct (mesma_chave pid jid e); simpl in H; lia.
Qed.

Lemma sem_repetidas_NoDup (pid : Z) (l : list Estatistica.t) :
  sem_repetidas l ->
  NoDup (map Estatistica.jogador_id
           (filter (fun e => Estatistica.partida_id e =? pid) l)).
Proof.
  induction l as [|e l IH]; intros H; simpl; [constructor|].
  pose proof (IH (sem_repetidas_cauda e l H)) as Hl.
  destruct (Z.eqb_spec (Estatistica.partida_id e) pid) as [Hp|_];
    [|exact Hl].
  simpl. constructor; [|exact Hl].
  intros Hin. apply in_map_iff in Hin. destruct Hin as (e' & Hj & Hin).
  apply filter_In in Hin. destruct Hin as [Hin Hp'].
  specialize (H pid (Estatistica.jogador_id e)). unfold linhas_de in H.
  simpl in H. unfold mesma_chave at 1 in H.
  rewrite Hp, !Z.eqb_refl in H. simpl in H.
  assert (He' : In e' (filter (mesma_chave pid (Estatistica.jogador_id e)) l)).
  { apply filter_In. split; [exact Hin|]. unfold mesma_chave.
    now rewrite Hp', Hj, Z.eqb_refl. }
  destruct (filter (mesma_chave pid (Estatistica.jogador_id e)) l);
    [destruct He'|simpl in H; lia].
Qed.

(** X17. After a POST that can be written, in a state the application
    reaches, the rows of the resolved match are one for each player of the
    roster and no more: the players the rows point to are the keys of the
    roster, each once. *)
Theorem index_post_uma_por_jogador (req : Pedido) (bd : BD) (d : date) :
  alcancavel bd -> method req = POST -> data_partida req = Ok d ->
  tudo_cabe (form req) bd = true ->
  exists bd',
    index req bd = Ok (Redireciona d, bd')
    /\ Permutation
         (map Estatistica.jogador_id
            (filter
               (fun e =>
                  Estatistica.partida_id e
                  =? Partida.id (fst (garante_partida d bd)))
               (estatisticas bd')))
         (map Jogador.id (jogadores bd)).
Proof.
  intros Hbd Hm Hd Hcabe. eexists.
  split; [apply (index_post req bd d Hm Hd Hcabe)|].
  destruct (garante_partida_tabelas d bd) as [Hj He].
  set (p := fst (garante_partida d bd)) in *.
  set (bd1 := snd (garante_partida d bd)) in *.
  set (bd' := salva_estatisticas (form req) (Partida.id p)
                (order_by_nome (jogadores bd1)) bd1).
  assert (Hbd' : alcancavel bd').
  { replace bd' with (passo (ChamaIndex req) bd).
    - now apply alc_passo.
    - rewrite passo_index, Hd, Hm, Hcabe. reflexivity. }
  apply NoDup_Permutation.
  - apply sem_repetidas_NoDup. exact (alcancavel_sem_repetidas _ bd' Hbd').
  - apply (alcancavel_ids _ bd Hbd).
  - intros k. split.
    + intros Hk. apply in_map_iff in Hk. destruct Hk as (e & <- & Hin).
      apply filter_In in Hin. destruct Hin as [Hin _].
      pose proof (alcancavel_referencias _ bd' Hbd') as Hr.
      rewrite Forall_forall in Hr.
      destruct (Hr e Hin) as [_ (j & Hji & <-)].
      apply in_map. change (jogadores bd') with (jogadores bd1) in Hji.
      now rewrite <- Hj.
    + intros Hk. apply in_map_iff in Hk. destruct Hk as (j & <- & Hin).
      assert (Hgr : gravada (form req) (Partida.id p) (Jogador.id j)
                      (estatisticas bd')).
      { unfold bd'. simpl. apply salva_todos_grava.
        - rewrite He. exact (alcancavel_sem_repetidas _ bd Hbd).
        - apply order_by_nome_In. now rewrite Hj. }
      destruct Hgr as (e & Hl & _).
      assert (Hie : In e (linhas_de (Partida.id p) (Jogador.id j)
                            (estatisticas bd')))
        by (rewrite Hl; now left).
      apply filter_In in Hie. destruct Hie as [Hie Hc].
      unfold mesma_chave in Hc. apply andb_true_iff in Hc.
      destruct Hc as [Hc1 Hc2]. apply Z.eqb_eq in Hc2.
      apply in_map_iff. exists e. split; [exact Hc2|].
      apply filter_In. auto.
Qed.

Lemma index_post_uma_por_jogador_witness :
  exists bd',
    index envio bd_elenco = Ok (Redireciona (mk_date 2024 5 2), bd')
    /\ map Estatistica.jogador_id
         (filter (fun e => Estatistica.partida_id e =? 1) (estatisticas bd'))
       = [2; 3; 1].
Proof.
  assert (H : alcancavel bd_elenco)
    by (apply alcancavel_executa; [apply alc_vazio|repeat constructor]).
  destruct (index_post_uma_por_jogador envio bd_elenco (mk_date 2024 5 2) H
              eq_refl eq_refl) as (bd' & Hi & _);
    [vm_compute; reflexivity|].
  exists bd'. split; [exact Hi|].
  assert (E0 : index envio bd_elenco
               = Ok (Redireciona (mk_date 2024 5 2), bd_rodada))
    by (vm_compute; reflexivity).
  rewrite E0 in Hi. injection Hi as <-. reflexivity.
Defined.

(** ** Looking at a date *)

(** X18. A GET of the index writes at most once.  When the date has a
    match the database is left as it is; when it has none, one match is
    added at the end of the table and nothing else changes.  The same GET
    again is answered with the same page and changes nothing. *)
Theorem index_get_de_novo (req : Pedido) (bd : BD) (d : date) :
  method req = GET -> data_partida req = Ok d ->
  exists ctx bd',
    index req bd = Ok (Renderiza ctx, bd')
    /\ index req bd' = Ok (Renderiza ctx, bd')
    /\ (partida_da_data d bd <> None -> bd' = bd)
    /\ (partida_da_data d bd = None ->
        bd' = mk_bd (jogadores bd) (partidas bd ++ [partida ctx])
                (estatisticas bd)
        /\ Partida.data (partida ctx) = d
        /\ ~ In (Partida.id (partida ctx)) (map Partida.id (partidas bd))).
Proof.
  intros Hm Hd. eexists. eexists.
  split; [apply (index_get_eq req bd d Hm Hd)|].
  split; [|split].
  - rewrite (index_get_eq req _ d Hm Hd), garante_partida_de_novo.
    reflexivity.
  - destruct (partida_da_data d bd) as [p|] eqn:Hf; [|tauto]. intros _.
    now rewrite (garante_partida_achada _ _ _ Hf).
  - intros Hf. rewrite (garante_partida_nova _ _ Hf). simpl.
    split; [reflexivity|]. split; [reflexivity|]. apply prox_id_novo.
Qed.

Lemma index_get_de_novo_witness :
  exists ctx bd',
    index consulta bd_elenco = Ok (Renderiza ctx, bd')
    /\ index consulta bd' = Ok (Renderiza ctx, bd')
    /\ partidas bd' = [Partida.mk 1 (mk_date 2024 5 2)].
Proof.
  destruct (index_get_de_novo consulta bd_elenco (mk_date 2024 5 2)
              eq_refl eq_refl) as (ctx & bd' & H1 & H2 & _ & H4).
  exists ctx, bd'. split; [exact H1|]. split; [exact H2|].
  destruct (H4 eq_refl) as (-> & _).
  assert (E : pagina consulta bd_elenco = Some ctx)
    by (unfold pagina; now rewrite H1).
  vm_compute in E. injection E as <-. reflexivity.
Defined.

(** ** A player just registered *)

(** X19. A player just registered starts from nothing.  In a state the
    application reaches, the key given to a new player is one no row of
    statistics points to, so the ranking of the next page of the index has
    an entry for the player with every total and the points at zero. *)
Theorem jogador_novo_zerado (cad req : Pedido) (bd : BD) (n : string)
  (d : date) :
  alcancavel bd ->
  method cad = POST -> md_get "nome" (form cad) = Some n -> n <> "" ->
  method req = GET -> data_partida req = Ok d ->
  exists j ctx bd',
    jogadores (snd (jogadores_view cad bd)) = (jogadores bd ++ [j])%list
    /\ Jogador.nome j = n
    /\ estatisticas_de (snd (jogadores_view cad bd)) j = []
    /\ index req (snd (jogadores_view cad bd)) = Ok (Renderiza ctx, bd')
    /\ In (Linha.mk j 0 0 0 0 0 0) (ranking ctx).
Proof.
  intros Hbd Hc Hn Hne Hm Hd.
  assert (Hv : jogadores_view cad bd
               = (RedirecionaJogadores,
                  mk_bd
                    (jogadores bd ++
                     [Jogador.mk (prox_id (map Jogador.id (jogadores bd))) n
                        (Some match md_get "goleiro" (form cad) with
                              | Some s => nao_vazia s
                              | None => false
                              end)])
                    (partidas bd) (estatisticas bd))).
  { unfold jogadores_view. rewrite Hc, Hn.
    destruct n; [now elim Hne|reflexivity]. }
  rewrite Hv. simpl.
  set (j := Jogador.mk (prox_id (map Jogador.id (jogadores bd))) n _).
  set (bd2 := mk_bd (jogadores bd ++ [j]) (partidas bd) (estatisticas bd)).
  assert (He : estatisticas_de bd2 j = []).
  { unfold estatisticas_de. simpl.
    apply find_None_filter. destruct (find _ (estatisticas bd)) as [e|] eqn:Hf;
      [|reflexivity].
    apply find_some in Hf. destruct Hf as [Hin Hid]. apply Z.eqb_eq in Hid.
    pose proof (alcancavel_referencias _ bd Hbd) as Hr.
    rewrite Forall_forall in Hr. destruct (Hr e Hin) as [_ (k & Hk & Hke)].
    elim (prox_id_novo (map Jogador.id (jogadores bd))).
    rewrite <- Hid, <- Hke. now apply in_map. }
  exists j. eexists. eexists.
  split; [reflexivity|]. split; [reflexivity|]. split; [exact He|].
  split; [apply (index_get_eq req bd2 d Hm Hd)|]. simpl.
  destruct (garante_partida_tabelas d bd2) as [Hj2 He2].
  unfold monta_ranking.
  apply (Permutation_in _ (Permutation_sym (ordena_pontos_perm _))).
  apply in_map_iff. exists j. split.
  - rewrite linha_de_eq. unfold estatisticas_de in *.
    rewrite He2, He. reflexivity.
  - apply order_by_nome_In. rewrite Hj2. simpl.
    apply in_or_app. right. now left.
Qed.

Lemma jogador_novo_zerado_witness :
  exists j ctx bd',
    jogadores
      (snd (jogadores_view (mk_pedido POST [] [("nome", "Edu")] dia_1)
              bd_rodada))
    = (jogadores bd_rodada ++ [j])%list
    /\ j = Jogador.mk 4 "Edu" (Some false)
    /\ index consulta
         (snd (jogadores_view (mk_pedido POST [] [("nome", "Edu")] dia_1)
                 bd_rodada))
       = Ok (Renderiza ctx, bd')
    /\ In (Linha.mk j 0 0 0 0 0 0) (ranking ctx).
Proof.
  assert (H : alcancavel bd_rodada).
  { apply alcancavel_executa; [|repeat constructor].
    apply alcancavel_executa; [apply alc_vazio|repeat constructor]. }
  destruct (jogador_novo_zerado (mk_pedido POST [] [("nome", "Edu")] dia_1)
              consulta bd_rodada "Edu" (mk_date 2024 5 2) H eq_refl eq_refl)
    as (j & ctx & bd' & Hj & _ & _ & Hi & Hr);
    [discriminate|reflexivity|reflexivity|].
  exists j, ctx, bd'. split; [exact Hj|]. split; [|auto].
  vm_compute in Hj. now injection Hj as <-.
Defined.
